(** * gonvme: the NVMe/TCP initiator layer

    A shallow embedding of [gonvme_tcp.go] (discovery-log parser, initiator
    lookup, connect and disconnect), of the second copy of that file kept in
    the repository (the one whose parser compares the transport type with
    [==] and flushes unconditionally), and of the parts of [gonvme.go] they
    rest on.

    Conventions.
    - A Go [string] is a sequence of bytes: [string] of the Standard Library,
      one [ascii] per byte.
    - A Go [error] value is [option error]; [None] is [nil].
    - [exec.Command(...).Output()] and [os.Stat] are the external process and
      file-system collaborators: they are section variables, so every theorem
      holds for all their behaviours.
    - [fmt.Printf] only writes to standard output and is left out. *)

From Stdlib Require Import String Ascii ZArith List Bool Lia DecimalString.
From stdpp Require Import base option gmap strings.
Import ListNotations.

Local Open Scope string_scope.
Local Open Scope list_scope.
Local Open Scope nat_scope.

(** ** The Go [strings] package, as far as the code calls it *)

Module strings.

(** [unicode.IsSpace] on the one-byte code points that are white space in
    ASCII: tab, line feed, vertical tab, form feed, carriage return and
    space.  (On input holding multi-byte UTF-8 sequences Go's [Fields] also
    splits at the Unicode spaces U+0085, U+00A0, U+2000 and the like; the
    tool's output is ASCII.) *)
Definition isSpace (c : ascii) : bool :=
  match c with
  | "009"%char | "010"%char | "011"%char | "012"%char | "013"%char
  | " "%char => true
  | _ => false
  end.

(** [strings.Fields(s)]: the maximal runs of non-space bytes of [s], in
    order. *)
Fixpoint Fields (s : string) : list string :=
  match s with
  | EmptyString => []
  | String c r =>
      if isSpace c then Fields r
      else match r with
           | EmptyString => [String c EmptyString]
           | String d _ =>
               if isSpace d then String c EmptyString :: Fields r
               else match Fields r with
                    | t :: ts => String c t :: ts
                    | [] => [String c EmptyString]
                    end
           end
  end.

(** [strings.Join(elems, sep)]. *)
Fixpoint Join (elems : list string) (sep : string) : string :=
  match elems with
  | [] => EmptyString
  | [x] => x
  | x :: rest => String.append x (String.append sep (Join rest sep))
  end.

(** [strings.Split(s, sep)] for a separator of one byte, which is the only
    way the code calls it ([sep = "\n"]).  The result is never empty:
    [Split("", sep)] is [[""]]. *)
Fixpoint Split (s : string) (sep : ascii) : list string :=
  match s with
  | EmptyString => [EmptyString]
  | String c r =>
      if Ascii.eqb c sep then EmptyString :: Split r sep
      else match Split r sep with
           | h :: t => String c h :: t
           | [] => [String c EmptyString]
           end
  end.

(** The line feed, ["\n"]. *)
Definition LF : ascii := "010"%char.

End strings.

(** ** Constants of [gonvme_tcp.go] *)

Definition ChrootDirectory : string := "chrootDirectory".
Definition DefaultInitiatorNameFile : string := "/etc/nvme/hostnqn".
Definition NVMeCommand : string := "nvme".
Definition NVMePort : string := "4420".

(** Modelled from the spec: the constant [NVMeTransportTypeTCP] that
    [gonvme_tcp.go] compares a [trtype:] value with is declared in a file
    that is not among the sources; the data model gives the transport type
    of a Target as [tcp] or [fc]. *)
Definition NVMeTransportTypeTCP : string := "tcp".

(** Modelled from the spec: [NVMeNVMeTransportTypeTCP], the name the second
    copy of the file uses for the same constant, is declared nowhere in the
    sources either. *)
Definition NVMeNVMeTransportTypeTCP : string := "tcp".

(** ** Data model *)

(** Modelled from the spec: the declaration of the struct [NVMeTarget] is
    not among the sources.  Its fields are the ones the discovery parser
    assigns and the composite literals of the tests name, all of type
    [string]. *)
Record NVMeTarget := mkNVMeTarget {
  Portal : string;
  TargetNqn : string;
  TrType : string;
  AdrFam : string;
  SubType : string;
  Treq : string;
  PortID : string;
  TrsvcID : string;
  SecType : string;
  TargetType : string;
  HostAdr : string
}.

(** [NVMeTarget{}], the zero value. *)
Definition emptyTarget : NVMeTarget :=
  mkNVMeTarget "" "" "" "" "" "" "" "" "" "" "".

Definition set_TargetType (v : string) (t : NVMeTarget) : NVMeTarget :=
  mkNVMeTarget (Portal t) (TargetNqn t) (TrType t) (AdrFam t) (SubType t)
    (Treq t) (PortID t) (TrsvcID t) (SecType t) v (HostAdr t).
Definition set_Portal (v : string) (t : NVMeTarget) : NVMeTarget :=
  mkNVMeTarget v (TargetNqn t) (TrType t) (AdrFam t) (SubType t)
    (Treq t) (PortID t) (TrsvcID t) (SecType t) (TargetType t) (HostAdr t).
Definition set_TargetNqn (v : string) (t : NVMeTarget) : NVMeTarget :=
  mkNVMeTarget (Portal t) v (TrType t) (AdrFam t) (SubType t)
    (Treq t) (PortID t) (TrsvcID t) (SecType t) (TargetType t) (HostAdr t).
Definition set_AdrFam (v : string) (t : NVMeTarget) : NVMeTarget :=
  mkNVMeTarget (Portal t) (TargetNqn t) (TrType t) v (SubType t)
    (Treq t) (PortID t) (TrsvcID t) (SecType t) (TargetType t) (HostAdr t).
Definition set_SubType (v : string) (t : NVMeTarget) : NVMeTarget :=
  mkNVMeTarget (Portal t) (TargetNqn t) (TrType t) (AdrFam t) v
    (Treq t) (PortID t) (TrsvcID t) (SecType t) (TargetType t) (HostAdr t).
Definition set_Treq (v : string) (t : NVMeTarget) : NVMeTarget :=
  mkNVMeTarget (Portal t) (TargetNqn t) (TrType t) (AdrFam t) (SubType t)
    v (PortID t) (TrsvcID t) (SecType t) (TargetType t) (HostAdr t).
Definition set_PortID (v : string) (t : NVMeTarget) : NVMeTarget :=
  mkNVMeTarget (Portal t) (TargetNqn t) (TrType t) (AdrFam t) (SubType t)
    (Treq t) v (TrsvcID t) (SecType t) (TargetType t) (HostAdr t).
Definition set_TrsvcID (v : string) (t : NVMeTarget) : NVMeTarget :=
  mkNVMeTarget (Portal t) (TargetNqn t) (TrType t) (AdrFam t) (SubType t)
    (Treq t) (PortID t) v (SecType t) (TargetType t) (HostAdr t).
Definition set_SecType (v : string) (t : NVMeTarget) : NVMeTarget :=
  mkNVMeTarget (Portal t) (TargetNqn t) (TrType t) (AdrFam t) (SubType t)
    (Treq t) (PortID t) (TrsvcID t) v (TargetType t) (HostAdr t).

(** [NVMeType] of [gonvme.go], embedded in [NVMeTCP]. *)
Record NVMeType := mkNVMeType {
  mock : bool;
  options : gmap string string
}.

Definition isMock (i : NVMeType) : bool := mock i.
Definition getOptions (i : NVMeType) : gmap string string := options i.

(** [NewNVMeTCP]. *)
Definition NewNVMeTCP (opts : gmap string string) : NVMeType :=
  mkNVMeType false opts.

(** Reading a missing key of a Go map gives the zero value, [""]. *)
Definition getChrootDirectory (nvme : NVMeType) : string :=
  let s := default "" (options nvme !! ChrootDirectory) in
  if String.eqb s "" then "/" else s.

Definition buildNVMeCommand (nvme : NVMeType) (cmd : list string) : list string :=
  if String.eqb (getChrootDirectory nvme) "/" then cmd
  else ["chroot"; getChrootDirectory nvme] ++ cmd.

(** ** Errors of the process collaborator *)

(** What [exiterr.Sys()] holds: a [syscall.WaitStatus], of which the code
    reads [ExitStatus()], or a value of another type. *)
Inductive SysValue :=
| WaitStatus (ExitStatus : Z)
| OtherSys.

(** A non-nil [error]: an [*exec.ExitError] (the process ran and failed) or
    any other error (the process could not be started, the file is
    missing, ...). *)
Inductive error :=
| ExitError (Sys : SysValue) (text : string)
| OtherError (text : string).

(** ** The discovery-log parser: loop state *)

(** The four variables the loop of [discoverNVMeTCPTargets] updates.
    [entryCount] is a Go [int] that goes up by one per entry header; it
    cannot wrap, the input being held in memory. *)
Record loopState := mkLoopState {
  targets : list NVMeTarget;
  nvmeTarget : NVMeTarget;
  entryCount : nat;
  skipIteration : bool
}.

Definition initState : loopState := mkLoopState [] emptyTarget 0 false.

(** ** [gonvme_tcp.go] *)

(** One iteration of [for _, line := range strings.Split(string(out), "\n")]. *)
Definition loopBody (st : loopState) (line : string) : loopState :=
  let tokens := strings.Fields line in
  if length tokens <? 2 then st
  else
    match tokens with
    | [] => st
    | key :: rest =>
        let value := strings.Join rest " " in
        let t := nvmeTarget st in
        let upd (t' : NVMeTarget) :=
          mkLoopState (targets st) t' (entryCount st) (skipIteration st) in
        if String.eqb key "=====Discovery" then
          mkLoopState
            (if negb (entryCount st =? 0) && negb (skipIteration st)
             then targets st ++ [t] else targets st)
            emptyTarget
            (S (entryCount st))
            false
        else if String.eqb key "trtype:" then
          mkLoopState (targets st) (set_TargetType value t) (entryCount st)
            (if negb (String.eqb value NVMeTransportTypeTCP) then true
             else skipIteration st)
        else if String.eqb key "traddr:" then upd (set_Portal value t)
        else if String.eqb key "subnqn:" then upd (set_TargetNqn value t)
        else if String.eqb key "adrfam:" then upd (set_AdrFam value t)
        else if String.eqb key "subtype:" then upd (set_SubType value t)
        else if String.eqb key "treq:" then upd (set_Treq value t)
        else if String.eqb key "portid:" then upd (set_PortID value t)
        else if String.eqb key "trsvcid:" then upd (set_TrsvcID value t)
        else if String.eqb key "sectype:" then upd (set_SecType value t)
        else st
    end.

(** The statement after the loop: the last entry is flushed when it was not
    skipped and has a subsystem NQN. *)
Definition flushLast (st : loopState) : list NVMeTarget :=
  if negb (skipIteration st) && negb (String.eqb (TargetNqn (nvmeTarget st)) "")
  then targets st ++ [nvmeTarget st]
  else targets st.

(** The parser proper: everything [discoverNVMeTCPTargets] does with the
    captured output once the command has succeeded. *)
Definition parseDiscovery (out : string) : list NVMeTarget :=
  flushLast (fold_left loopBody (strings.Split out strings.LF) initState).

Section ProcessAdapter.

(** [exec.Command(argv[0], argv[1:]...).Output()]. *)
Variable Output : list string -> string * option error.
(** [os.Stat(name)], of which the code only reads the error. *)
Variable Stat : string -> option error.

Definition discoverNVMeTCPTargets (nvme : NVMeType) (address : string)
    (login : bool) : list NVMeTarget * option error :=
  let exe := buildNVMeCommand nvme
    [NVMeCommand; "discover"; "-t"; "tcp"; "-a"; address; "-s"; NVMePort] in
  let '(out, err) := Output exe in
  match err with
  | Some e => ([], Some e)
  | None => (parseDiscovery out, None)
  end.

Definition DiscoverNVMeTCPTargets := discoverNVMeTCPTargets.

(** [getInitiators].  [initiatorConfig] always holds one name; the loop
    over it is kept as a fold whose state is [(nqns, err)], [err] being the
    variable declared before the loop.  The [err] that [cmd.Output()]
    returns is a new variable of the loop body: it is printed and goes no
    further. *)
Definition initiatorFiles (nvme : NVMeType) (filename : string) : list string :=
  if String.eqb filename "" then
    if negb (String.eqb (getChrootDirectory nvme) "/")
    then [String.append (getChrootDirectory nvme)
            (String.append "/" DefaultInitiatorNameFile)]
    else [DefaultInitiatorNameFile]
  else [filename].

Definition readInitiatorFile (acc : list string * option error)
    (init : string) : list string * option error :=
  let '(nqns, _) := acc in
  match Stat init with
  | Some e => (nqns, Some e)
  | None =>
      let '(out, _) := Output ["cat"; init] in
      let lines := strings.Split out strings.LF in
      (nqns ++ List.filter (fun line => negb (String.eqb line "")) lines, None)
  end.

Definition getInitiators (nvme : NVMeType) (filename : string)
    : list string * option error :=
  let '(nqns, err) :=
    fold_left readInitiatorFile (initiatorFiles nvme filename) ([], None) in
  if length nqns =? 0 then (nqns, err) else (nqns, None).

Definition GetInitiators := getInitiators.

(** [nvmeConnect]. *)
Definition nvmeConnect (nvme : NVMeType) (target : NVMeTarget) : option error :=
  let exe := buildNVMeCommand nvme
    [NVMeCommand; "connect"; "-t"; "tcp"; "-n"; TargetNqn target;
     "-a"; Portal target; "-s"; NVMePort] in
  let '(_, err) := Output exe in
  match err with
  | Some e =>
      let err' :=
        match e with
        | ExitError sys _ =>
            let nvmeConnectResult :=
              match sys with
              | WaitStatus status => status
              | OtherSys => (-1)%Z
              end in
            if (nvmeConnectResult =? 114)%Z then None else Some e
        | OtherError _ => Some e
        end in
      err'
  | None => None
  end.

Definition NVMeConnect := nvmeConnect.

(** [nvmeDisonnect] (the name is the source's). *)
Definition nvmeDisonnect (nvme : NVMeType) (target : NVMeTarget) : option error :=
  let exe := buildNVMeCommand nvme
    [NVMeCommand; "disconnect"; "-n"; TargetNqn target] in
  let '(_, err) := Output exe in
  err.

Definition NVMeDisonnect := nvmeDisonnect.

End ProcessAdapter.

(** ** Reading a discovery log by entries

    The vocabulary in which the properties of the parser are stated: what a
    line says, where entries start, and what one entry on its own amounts
    to. *)

(** A line the loop looks at: at least two fields, the first is the key, the
    rest joined by single spaces is the value. *)
Definition keyValue (line : string) : option (string * string) :=
  match strings.Fields line with
  | key :: v :: vs => Some (key, strings.Join (v :: vs) " ")
  | _ => None
  end.

(** An entry boundary: a line the loop looks at whose key is the
    entry-header literal. *)
Definition isEntryHeader (line : string) : bool :=
  match keyValue line with
  | Some (key, _) => String.eqb key "=====Discovery"
  | None => false
  end.

(** The value a line gives to key [k], if it is a line for [k]. *)
Definition lineValue (k : string) (line : string) : option string :=
  match keyValue line with
  | Some (key, value) => if String.eqb key k then Some value else None
  | None => None
  end.

(** The values of the lines for key [k] among [body], in order. *)
Definition valuesOf (k : string) (body : list string) : list string :=
  omap (lineValue k) body.

(** What a line that is not an entry header does to the record in
    progress. *)
Definition fieldLine (t : NVMeTarget) (line : string) : NVMeTarget :=
  match keyValue line with
  | Some (key, value) =>
      if String.eqb key "trtype:" then set_TargetType value t
      else if String.eqb key "traddr:" then set_Portal value t
      else if String.eqb key "subnqn:" then set_TargetNqn value t
      else if String.eqb key "adrfam:" then set_AdrFam value t
      else if String.eqb key "subtype:" then set_SubType value t
      else if String.eqb key "treq:" then set_Treq value t
      else if String.eqb key "portid:" then set_PortID value t
      else if String.eqb key "trsvcid:" then set_TrsvcID value t
      else if String.eqb key "sectype:" then set_SecType value t
      else t
  | None => t
  end.

(** The keys the parser knows. *)
Definition knownKeys : list string :=
  ["=====Discovery"; "trtype:"; "traddr:"; "subnqn:"; "adrfam:"; "subtype:";
   "treq:"; "portid:"; "trsvcid:"; "sectype:"].

(** A line the parser acts on. *)
Definition isKnownLine (line : string) : bool :=
  match keyValue line with
  | Some (key, _) => existsb (String.eqb key) knownKeys
  | None => false
  end.

(** The record the lines of one entry build, starting from the empty one. *)
Definition entryTarget (body : list string) : NVMeTarget :=
  fold_left fieldLine body emptyTarget.

(** The lines before the first entry header, and the bodies of the entries
    (the lines between one header and the next, or the end). *)
Fixpoint segments (lines : list string) : list string * list (list string) :=
  match lines with
  | [] => ([], [])
  | l :: rest =>
      let '(pre, es) := segments rest in
      if isEntryHeader l then ([], pre :: es) else (l :: pre, es)
  end.

Definition preamble (out : string) : list string :=
  fst (segments (strings.Split out strings.LF)).

Definition entries (out : string) : list (list string) :=
  snd (segments (strings.Split out strings.LF)).

(** The body in progress when the input ends: the last entry, or the
    preamble when there is no entry header at all. *)
Definition lastBody (out : string) : list string :=
  List.last (entries out) (preamble out).

Section SkipTest.

(** The test on a [trtype:] value that sets [skipIteration]; the two copies
    of the parser differ in it. *)
Variable trips : string -> bool.

(** Whether the lines of [body] leave [skipIteration] set. *)
Definition skippedBy (body : list string) : bool :=
  existsb trips (valuesOf "trtype:" body).

(** The state after an entry header. *)
Definition boundary (st : loopState) : loopState :=
  mkLoopState
    (targets st ++
       (if negb (entryCount st =? 0) && negb (skipIteration st)
        then [nvmeTarget st] else []))
    emptyTarget (S (entryCount st)) false.

(** The state after the lines of [body], none of which is a header. *)
Definition afterBody (st : loopState) (body : list string) : loopState :=
  mkLoopState (targets st) (fold_left fieldLine body (nvmeTarget st))
    (entryCount st) (skipIteration st || skippedBy body).

Fixpoint afterEntries (st : loopState) (es : list (list string)) : loopState :=
  match es with
  | [] => st
  | b :: es' => afterEntries (afterBody (boundary st) b) es'
  end.

(** The entries appended at the boundaries: all but the last, the skipped
    ones left out. *)
Definition keptAtBoundaries (out : string) : list (list string) :=
  List.filter (fun b => negb (skippedBy b)) (List.removelast (entries out)).

End SkipTest.

(** In [gonvme_tcp.go] a value other than the TCP constant sets the flag: an
    entry is skipped when it is of another transport. *)
Definition notTcp (v : string) : bool := negb (String.eqb v NVMeTransportTypeTCP).

Definition otherTransport (body : list string) : bool := skippedBy notTcp body.

(** Whether [gonvme_tcp.go] flushes the body in progress at the end of
    input. *)
Definition flushed (body : list string) : bool :=
  negb (otherTransport body) && negb (String.eqb (TargetNqn (entryTarget body)) "").

(** The bodies [gonvme_tcp.go] returns a record for: every entry but the
    last that is not of another transport, then the last body if it is
    flushed. *)
Definition returnedBodies (out : string) : list (list string) :=
  keptAtBoundaries notTcp out
  ++ (if flushed (lastBody out) then [lastBody out] else []).

(** The result of [gonvme_tcp.go] read off the entries. *)
Definition byEntries (out : string) : list NVMeTarget :=
  map entryTarget (returnedBodies out).

(** Well-formed discovery text: nothing before the first entry names a
    subsystem, and every entry has exactly one [trtype:] line and at least
    one [subnqn:] and one [traddr:] line. *)
Definition wellFormedEntry (body : list string) : bool :=
  (length (valuesOf "trtype:" body) =? 1)
  && negb (length (valuesOf "subnqn:" body) =? 0)
  && negb (length (valuesOf "traddr:" body) =? 0).

Definition wellFormed (out : string) : bool :=
  (length (valuesOf "subnqn:" (preamble out)) =? 0)
  && forallb wellFormedEntry (entries out).

(** The entries of the transport being discovered, and the others. *)
Definition isTcpEntry (body : list string) : bool :=
  negb (length (valuesOf "trtype:" body) =? 0)
  && forallb (fun v => String.eqb v NVMeTransportTypeTCP) (valuesOf "trtype:" body).

Definition countTcp (out : string) : nat :=
  length (List.filter isTcpEntry (entries out)).

Definition countOther (out : string) : nat :=
  length (List.filter otherTransport (entries out)).

(** ** The second copy of the file

    The repository holds a second file with the same package, type and
    function names.  Its [discoverNVMeTCPTargets] differs from the one of
    [gonvme_tcp.go] in two statements: the [trtype:] case sets
    [skipIteration] when the value {e equals} the TCP constant, and the
    statement after the loop appends [nvmeTarget] without a condition.  Its
    [getInitiators] is the same text as in [gonvme_tcp.go]; it has no connect
    and no disconnect. *)
Module SecondCopy.

Definition loopBody (st : loopState) (line : string) : loopState :=
  let tokens := strings.Fields line in
  if length tokens <? 2 then st
  else
    match tokens with
    | [] => st
    | key :: rest =>
        let value := strings.Join rest " " in
        let t := nvmeTarget st in
        let upd (t' : NVMeTarget) :=
          mkLoopState (targets st) t' (entryCount st) (skipIteration st) in
        if String.eqb key "=====Discovery" then
          mkLoopState
            (if negb (entryCount st =? 0) && negb (skipIteration st)
             then targets st ++ [t] else targets st)
            emptyTarget
            (S (entryCount st))
            false
        else if String.eqb key "trtype:" then
          mkLoopState (targets st) (set_TargetType value t) (entryCount st)
            (if String.eqb value NVMeNVMeTransportTypeTCP then true
             else skipIteration st)
        else if String.eqb key "traddr:" then upd (set_Portal value t)
        else if String.eqb key "subnqn:" then upd (set_TargetNqn value t)
        else if String.eqb key "adrfam:" then upd (set_AdrFam value t)
        else if String.eqb key "subtype:" then upd (set_SubType value t)
        else if String.eqb key "treq:" then upd (set_Treq value t)
        else if String.eqb key "portid:" then upd (set_PortID value t)
        else if String.eqb key "trsvcid:" then upd (set_TrsvcID value t)
        else if String.eqb key "sectype:" then upd (set_SecType value t)
        else st
    end.

(** [targets = append(targets, nvmeTarget)], whatever the state. *)
Definition flushLast (st : loopState) : list NVMeTarget :=
  targets st ++ [nvmeTarget st].

Definition parseDiscovery (out : string) : list NVMeTarget :=
  flushLast (fold_left loopBody (strings.Split out strings.LF) initState).

Definition discoverNVMeTCPTargets
    (Output : list string -> string * option error)
    (nvme : NVMeType) (address : string) (login : bool)
    : list NVMeTarget * option error :=
  let exe := buildNVMeCommand nvme
    [NVMeCommand; "discover"; "-t"; "tcp"; "-a"; address; "-s"; NVMePort] in
  let '(out, err) := Output exe in
  match err with
  | Some e => ([], Some e)
  | None => (parseDiscovery out, None)
  end.

(** Here a value equal to the TCP constant sets the flag. *)
Definition isTcp (v : string) : bool := String.eqb v NVMeNVMeTransportTypeTCP.

Definition hasTcpLine (body : list string) : bool := skippedBy isTcp body.

(** The bodies the second copy returns a record for: every entry but the
    last that has no TCP [trtype:] line, then the last body, whatever it
    is. *)
Definition returnedBodies (out : string) : list (list string) :=
  keptAtBoundaries isTcp out ++ [lastBody out].

Definition byEntries (out : string) : list NVMeTarget :=
  map entryTarget (returnedBodies out).

End SecondCopy.



(** ** Exit status of a failed invocation *)

(** The exit status [nvmeConnect] reads off an error: the [ExitStatus()] of
    the wait status of an [*exec.ExitError]; nothing for any other error. *)
Definition exitStatusOf (e : error) : option Z :=
  match e with
  | ExitError (WaitStatus status) _ => Some status
  | _ => None
  end.

(** The argument vectors the two lifecycle operations run. *)
Definition connectCommand (nvme : NVMeType) (target : NVMeTarget) : list string :=
  buildNVMeCommand nvme
    [NVMeCommand; "connect"; "-t"; "tcp"; "-n"; TargetNqn target;
     "-a"; Portal target; "-s"; NVMePort].

Definition disconnectCommand (nvme : NVMeType) (target : NVMeTarget) : list string :=
  buildNVMeCommand nvme [NVMeCommand; "disconnect"; "-n"; TargetNqn target].

Definition discoverCommand (nvme : NVMeType) (address : string) : list string :=
  buildNVMeCommand nvme
    [NVMeCommand; "discover"; "-t"; "tcp"; "-a"; address; "-s"; NVMePort].

(** ** The mock initiator *)

(** [err.Error()]. *)
Definition errorText (e : error) : string :=
  match e with
  | ExitError _ text => text
  | OtherError text => text
  end.

(** [strings.Contains(s, substr)]. *)
Definition Contains (s substr : string) : bool :=
  match String.index 0 substr s with
  | Some _ => true
  | None => false
  end.

(** Modelled from the spec: the fault-injection state of the mock
    ([GONVMEMock]) is declared in a file that is not among the sources.  The
    spec gives it one boolean switch per operation family; the names are the
    ones the tests reset. *)
Record MockFaults := mkMockFaults {
  InduceDiscoveryError : bool;
  InduceInitiatorError : bool;
  InduceTCPLoginError : bool;
  InduceFCLoginError : bool;
  InduceLogoutError : bool;
  InduceGetSessionsError : bool;
  InducedNVMeDeviceAndNamespaceError : bool;
  InducedNVMeNamespaceIDError : bool;
  InducedNVMeDeviceDataError : bool
}.

(** Modelled from the spec: the cardinalities the mock is configured with at
    construction time (the spec's configuration surface
    [mockNumberOfTCPTargets], [mockNumberOfFCTargets], ...); the constructor
    that reads them is not among the sources. *)
Record MockConfig := mkMockConfig {
  MockNumberOfTCPTargets : nat;
  MockNumberOfFCTargets : nat;
  MockNumberOfInitiators : nat;
  MockNumberOfNamespaceDevices : nat
}.

(** Modelled from the spec: record [i] of the [N] the mock synthesizes,
    numbered sequentially.  The spec fixes the number of records, their
    numbering and their order; the text of the fields is not given there and
    stands for whatever the mock writes. *)
Definition mockTarget (transport address : string) (i : nat) : NVMeTarget :=
  mkNVMeTarget address
    (String.append "nqn.mock.target."
       (NilZero.string_of_uint (Nat.to_uint (S i))))
    transport "" "" "" "" "" "" transport "".

(** Modelled from the spec: the discovery operations of the mock, which are
    not among the sources: check the discovery switch first; if it is set,
    return no target and an error whose message contains [induced], with no
    synthesis; otherwise synthesize as many targets as configured. *)
Definition mockDiscover (transport : string) (n : nat) (faults : MockFaults)
    (address : string) (login : bool) : list NVMeTarget * option error :=
  if InduceDiscoveryError faults
  then ([], Some (OtherError "discoverTargets induced error"))
  else (map (mockTarget transport address) (seq 0 n), None).

Definition mockDiscoverNVMeTCPTargets (cfg : MockConfig) :=
  mockDiscover "tcp" (MockNumberOfTCPTargets cfg).

Definition mockDiscoverNVMeFCTargets (cfg : MockConfig) :=
  mockDiscover "fc" (MockNumberOfFCTargets cfg).

(** ** Sample inputs *)

Definition nl : string := String strings.LF EmptyString.

(** Lines joined the way the tool prints them, each ended by a line feed. *)
Definition unlines (ls : list string) : string :=
  fold_right (fun l acc => String.append l (String.append nl acc)) EmptyString ls.

(** The output the comment in [discoverNVMeTCPTargets] shows: a Fibre
    Channel entry followed by a TCP entry. *)
Definition sampleLog : string :=
  unlines
    ["Discovery Log Number of Records 2, Generation counter 2";
     "=====Discovery Log Entry 0======";
     "trtype:  fc";
     "adrfam:  fibre-channel";
     "subtype: nvme subsystem";
     "treq:    not specified";
     "portid:  0";
     "trsvcid: none";
     "subnqn:  nqn.1111-11.com.dell:powerstore:00:a1a1a1a111a1111a111a";
     "traddr:  nn-0x11aaa111a1111a11:aa-0x11aaa11111111a11";
     "";
     "=====Discovery Log Entry 1======";
     "trtype:  tcp";
     "adrfam:  ipv4";
     "subtype: nvme subsystem";
     "treq:    not specified";
     "portid:  2304";
     "trsvcid: 4420";
     "subnqn:  nqn.1111-11.com.dell:powerstore:00:a1a1a1a111a1111a111a";
     "traddr:  1.1.1.1";
     "sectype: none"].

(** The same two entries, the TCP one first. *)
Definition sampleLogTcpFirst : string :=
  unlines
    ["Discovery Log Number of Records 2, Generation counter 2";
     "=====Discovery Log Entry 0======";
     "trtype:  tcp";
     "adrfam:  ipv4";
     "subtype: nvme subsystem";
     "treq:    not specified";
     "portid:  2304";
     "trsvcid: 4420";
     "subnqn:  nqn.1111-11.com.dell:powerstore:00:a1a1a1a111a1111a111a";
     "traddr:  1.1.1.1";
     "sectype: none";
     "=====Discovery Log Entry 1======";
     "trtype:  fc";
     "adrfam:  fibre-channel";
     "subtype: nvme subsystem";
     "treq:    not specified";
     "portid:  0";
     "trsvcid: none";
     "subnqn:  nqn.1111-11.com.dell:powerstore:00:a1a1a1a111a1111a111a";
     "traddr:  nn-0x11aaa111a1111a11:aa-0x11aaa11111111a11"].

Definition sampleTcpTarget : NVMeTarget :=
  mkNVMeTarget "1.1.1.1"
    "nqn.1111-11.com.dell:powerstore:00:a1a1a1a111a1111a111a" ""
    "ipv4" "nvme subsystem" "not specified" "2304" "4420" "none" "tcp" "".

Definition sampleFcTarget : NVMeTarget :=
  mkNVMeTarget "nn-0x11aaa111a1111a11:aa-0x11aaa11111111a11"
    "nqn.1111-11.com.dell:powerstore:00:a1a1a1a111a1111a111a" ""
    "fibre-channel" "nvme subsystem" "not specified" "0" "none" "" "fc" "".

(** A TCP entry that names its subsystem and has no [traddr:] line. *)
Definition sampleNoPortal : string :=
  unlines
    ["=====Discovery Log Entry 0======";
     "trtype:  tcp";
     "subnqn:  nqn.1111-11.com.dell:powerstore:00:a1a1a1a111a1111a111a"].

(** A log with no record: the header line the tool prints and nothing
    else. *)
Definition sampleNoRecords : string :=
  unlines ["Discovery Log Number of Records 0, Generation counter 2"].

(** A process that prints [out] and exits with status 0. *)
Definition prints (out : string) : list string -> string * option error :=
  fun _ => (out, None).

(** A process that prints nothing and exits with [status]. *)
Definition exitsWith (status : Z) : list string -> string * option error :=
  fun _ => (EmptyString, Some (ExitError (WaitStatus status) "exit status")).

(** ** Further vocabulary *)

(** The parser on the lines of the output, already split. *)
Definition parseLines (lines : list string) : list NVMeTarget :=
  flushLast (fold_left loopBody lines initState).

(** The field of the record each key of a [key: value] line is stored in,
    as the [switch] of the loop has it. *)
Definition fieldOfKey : list (string * (NVMeTarget -> string)) :=
  [("trtype:", TargetType); ("traddr:", Portal); ("subnqn:", TargetNqn);
   ("adrfam:", AdrFam); ("subtype:", SubType); ("treq:", Treq);
   ("portid:", PortID); ("trsvcid:", TrsvcID); ("sectype:", SecType)].

(** Whether byte [c] occurs in [s]. *)
Fixpoint hasByte (c : ascii) (s : string) : bool :=
  match s with
  | EmptyString => false
  | String d r => Ascii.eqb d c || hasByte c r
  end.

(** The file [getInitiators] looks at when it is given no file name. *)
Definition defaultInitiatorFile (nvme : NVMeType) : string :=
  if String.eqb (getChrootDirectory nvme) "/" then DefaultInitiatorNameFile
  else String.append (getChrootDirectory nvme)
         (String.append "/" DefaultInitiatorNameFile).

(** A process that prints [out] and then fails with [e]. *)
Definition printsAndFails (out : string) (e : error)
    : list string -> string * option error :=
  fun _ => (out, Some e).

(** A log without entry header: key/value lines only. *)
Definition sampleNoHeader : string :=
  unlines ["trtype:  tcp"; "subnqn:  nqn.2014-08.org.nvmexpress.discovery";
           "traddr:  1.1.1.1"].

(** A line whose first field is the entry-header literal, whether or not
    another field follows. *)
Definition firstFieldIsHeader (line : string) : bool :=
  match strings.Fields line with
  | key :: _ => String.eqb key "=====Discovery"
  | [] => false
  end.

(** A log in which a line holding the entry-header literal alone stands
    between the lines of two entries. *)
Definition sampleBareHeader : string :=
  unlines
    ["=====Discovery Log Entry 0======";
     "trtype:  tcp";
     "traddr:  1.1.1.1";
     "=====Discovery";
     "subnqn:  nqn.1111-11.com.dell:powerstore:00:a1a1a1a111a1111a111a"].

(** * Properties *)

(** ** Fields, Join and Split *)

Lemma Fields_not_empty : forall s t, In t (strings.Fields s) -> t <> "".
Proof.
  induction s as [|c r IH]; simpl; intros t Ht; [contradiction|].
  destruct (strings.isSpace c); [now apply IH|].
  destruct r as [|d r'].
  - destruct Ht as [<-|[]]. discriminate.
  - destruct (strings.isSpace d).
    + destruct Ht as [<-|Ht]; [discriminate | now apply IH].
    + destruct (strings.Fields (String d r')) as [|t0 ts].
      * destruct Ht as [<-|[]]. discriminate.
      * destruct Ht as [<-|Ht]; [discriminate|].
        apply IH. now right.
Qed.

Lemma Join_not_empty : forall v vs sep, v <> "" -> strings.Join (v :: vs) sep <> "".
Proof.
  intros v vs sep Hv. destruct v as [|c v']; [congruence|].
  destruct vs; simpl; discriminate.
Qed.

Lemma Split_not_nil : forall s sep, strings.Split s sep <> [].
Proof.
  intros [|c r] sep; simpl; [discriminate|].
  destruct (Ascii.eqb c sep); [discriminate|].
  destruct (strings.Split r sep); discriminate.
Qed.

Lemma keyValue_value_not_empty :
  forall line key value, keyValue line = Some (key, value) -> value <> "".
Proof.
  unfold keyValue. intros line key value H.
  destruct (strings.Fields line) as [|k [|v vs]] eqn:E; try discriminate.
  injection H as <- <-.
  apply Join_not_empty, (Fields_not_empty line).
  rewrite E. right. now left.
Qed.

Lemma lineValue_not_empty :
  forall k line v, lineValue k line = Some v -> v <> "".
Proof.
  unfold lineValue. intros k line v H.
  destruct (keyValue line) as [[key value]|] eqn:E; [|discriminate].
  destruct (String.eqb key k); [|discriminate].
  injection H as <-. eapply keyValue_value_not_empty; eauto.
Qed.

(** ** The loop, read by entries

    Shared by the two copies of the parser: [body] is the loop body, [trips]
    its test on a [trtype:] value. *)

Section LoopByEntries.

Variable trips : string -> bool.
Variable body : loopState -> string -> loopState.

Hypothesis body_header :
  forall st line, isEntryHeader line = true -> body st line = boundary st.
Hypothesis body_field :
  forall st line, isEntryHeader line = false ->
    body st line = afterBody trips st [line].

Lemma afterBody_nil : forall st, afterBody trips st [] = st.
Proof. intros [ts t n sk]. unfold afterBody. cbn. now rewrite orb_false_r. Qed.

Lemma skippedBy_cons :
  forall l b, skippedBy trips (l :: b) = skippedBy trips [l] || skippedBy trips b.
Proof.
  intros l b. unfold skippedBy, valuesOf. cbn [omap list_omap].
  destruct (lineValue "trtype:" l); cbn [existsb]; now rewrite ?orb_false_r.
Qed.

Lemma afterBody_cons :
  forall st l b,
    afterBody trips (afterBody trips st [l]) b = afterBody trips st (l :: b).
Proof.
  intros st l b. unfold afterBody.
  cbn [targets nvmeTarget entryCount skipIteration fold_left].
  now rewrite (skippedBy_cons l b), orb_assoc.
Qed.

Lemma loop_by_segments :
  forall lines st,
    fold_left body lines st =
    afterEntries trips (afterBody trips st (fst (segments lines)))
      (snd (segments lines)).
Proof.
  induction lines as [|l rest IH]; intros st.
  - cbn. now rewrite afterBody_nil.
  - cbn [fold_left segments]. rewrite IH.
    destruct (segments rest) as [pre es]. cbn [fst snd].
    destruct (isEntryHeader l) eqn:E; cbn [fst snd].
    + rewrite (body_header _ _ E), afterBody_nil. reflexivity.
    + rewrite (body_field _ _ E), afterBody_cons. reflexivity.
Qed.

Lemma afterEntries_spec :
  forall es st d, es <> [] ->
    afterEntries trips st es =
    mkLoopState
      (targets (boundary st) ++
         map entryTarget
           (List.filter (fun b => negb (skippedBy trips b)) (List.removelast es)))
      (entryTarget (List.last es d))
      (entryCount st + length es)
      (skippedBy trips (List.last es d)).
Proof.
  induction es as [|b es IH]; intros st d Hne; [congruence|].
  destruct es as [|b' es'].
  - cbn [afterEntries List.removelast List.filter map List.last length].
    unfold afterBody. cbn [boundary targets nvmeTarget entryCount skipIteration orb].
    rewrite app_nil_r. f_equal. lia.
  - change (afterEntries trips st (b :: b' :: es'))
      with (afterEntries trips (afterBody trips (boundary st) b) (b' :: es')).
    rewrite (IH _ d) by discriminate.
    change (List.last (b :: b' :: es') d) with (List.last (b' :: es') d).
    change (List.removelast (b :: b' :: es')) with (b :: List.removelast (b' :: es')).
    cbn [List.filter map].
    cbn [boundary afterBody targets nvmeTarget entryCount skipIteration
         Nat.eqb negb andb orb].
    f_equal.
    + fold (entryTarget b).
      destruct (skippedBy trips b); cbn [negb app map];
        now rewrite <- ?app_assoc, ?app_nil_r.
    + cbn [length]. lia.
Qed.

(** The state in which the loop ends. *)
Lemma loop_final_state :
  forall out,
    let st := fold_left body (strings.Split out strings.LF) initState in
    targets st = map entryTarget (keptAtBoundaries trips out)
    /\ nvmeTarget st = entryTarget (lastBody out)
    /\ skipIteration st = skippedBy trips (lastBody out)
    /\ entryCount st = length (entries out).
Proof.
  intros out. cbv zeta. rewrite loop_by_segments.
  unfold keptAtBoundaries, lastBody, entries, preamble.
  destruct (segments (strings.Split out strings.LF)) as [pre es]. cbn [fst snd].
  destruct es as [|b es'].
  - cbn. auto.
  - rewrite (afterEntries_spec (b :: es') _ pre) by discriminate.
    cbn [targets nvmeTarget entryCount skipIteration].
    unfold boundary, afterBody, initState.
    cbn [targets nvmeTarget entryCount skipIteration Nat.eqb negb andb app].
    auto.
Qed.

End LoopByEntries.

(** ** One iteration of the loop *)

Lemma loopBody_header :
  forall st line, isEntryHeader line = true -> loopBody st line = boundary st.
Proof.
  intros st line. unfold isEntryHeader, keyValue, loopBody, boundary.
  destruct (strings.Fields line) as [|k [|v vs]]; try discriminate.
  cbn [length Nat.ltb Nat.leb]. intros ->.
  destruct (negb (entryCount st =? 0) && negb (skipIteration st));
    [reflexivity | now rewrite app_nil_r].
Qed.

Lemma loopBody_field :
  forall st line, isEntryHeader line = false ->
    loopBody st line = afterBody notTcp st [line].
Proof.
  intros [ts t n sk] line.
  unfold isEntryHeader, afterBody, skippedBy, valuesOf.
  cbn [omap list_omap fold_left targets nvmeTarget entryCount skipIteration].
  unfold lineValue, fieldLine, keyValue, loopBody.
  destruct (strings.Fields line) as [|k [|v vs]];
    cbn [length Nat.ltb Nat.leb existsb targets
         nvmeTarget entryCount skipIteration];
    try (intros _; now rewrite orb_false_r).
  intros ->.
  destruct (String.eqb k "trtype:").
  - cbn [existsb]. unfold notTcp.
    destruct (negb (String.eqb _ NVMeTransportTypeTCP)); cbn;
      now rewrite ?orb_true_r, ?orb_false_r.
  - cbn [existsb]. rewrite orb_false_r.
    repeat (match goal with
            | |- context [String.eqb k ?s] => destruct (String.eqb k s)
            end; try reflexivity).
Qed.

Lemma secondCopy_loopBody_header :
  forall st line, isEntryHeader line = true ->
    SecondCopy.loopBody st line = boundary st.
Proof.
  intros st line. unfold isEntryHeader, keyValue, SecondCopy.loopBody, boundary.
  destruct (strings.Fields line) as [|k [|v vs]]; try discriminate.
  cbn [length Nat.ltb Nat.leb]. intros ->.
  destruct (negb (entryCount st =? 0) && negb (skipIteration st));
    [reflexivity | now rewrite app_nil_r].
Qed.

Lemma secondCopy_loopBody_field :
  forall st line, isEntryHeader line = false ->
    SecondCopy.loopBody st line = afterBody SecondCopy.isTcp st [line].
Proof.
  intros [ts t n sk] line.
  unfold isEntryHeader, afterBody, skippedBy, valuesOf.
  cbn [omap list_omap fold_left targets nvmeTarget entryCount skipIteration].
  unfold lineValue, fieldLine, keyValue, SecondCopy.loopBody.
  destruct (strings.Fields line) as [|k [|v vs]];
    cbn [length Nat.ltb Nat.leb existsb targets
         nvmeTarget entryCount skipIteration];
    try (intros _; now rewrite orb_false_r).
  intros ->.
  destruct (String.eqb k "trtype:").
  - cbn [existsb]. unfold SecondCopy.isTcp.
    destruct (String.eqb _ NVMeNVMeTransportTypeTCP); cbn;
      now rewrite ?orb_true_r, ?orb_false_r.
  - cbn [existsb]. rewrite orb_false_r.
    repeat (match goal with
            | |- context [String.eqb k ?s] => destruct (String.eqb k s)
            end; try reflexivity).
Qed.

(** The parser of [gonvme_tcp.go] returns what reading the log entry by
    entry gives. *)
Lemma parseDiscovery_byEntries : forall out, parseDiscovery out = byEntries out.
Proof.
  intros out. unfold parseDiscovery, byEntries, returnedBodies, flushLast.
  destruct (loop_final_state notTcp loopBody loopBody_header loopBody_field out)
    as (Ht & Hn & Hs & _).
  rewrite Ht, Hn, Hs, map_app. unfold flushed.
  fold (otherTransport (lastBody out)).
  destruct (_ && _); cbn [map]; now rewrite ?app_nil_r.
Qed.

(** So does the parser of the second copy, for its own reading. *)
Lemma secondCopy_parseDiscovery_byEntries :
  forall out, SecondCopy.parseDiscovery out = SecondCopy.byEntries out.
Proof.
  intros out.
  unfold SecondCopy.parseDiscovery, SecondCopy.byEntries,
    SecondCopy.returnedBodies, SecondCopy.flushLast.
  destruct (loop_final_state SecondCopy.isTcp SecondCopy.loopBody
              secondCopy_loopBody_header secondCopy_loopBody_field out)
    as (Ht & Hn & _).
  now rewrite Ht, Hn, map_app.
Qed.

(** ** Connect and disconnect *)

(** C1.  When the connect invocation fails with exit status 114, the tool's
    code for a connection that already exists, [NVMeConnect] returns nil;
    when it fails in any other way (any other exit status, an exit error
    without a wait status, an error that is not an exit error) it returns
    that very error. *)
Theorem NVMeConnect_exit_status :
  forall Output nvme target out e,
    Output (connectCommand nvme target) = (out, Some e) ->
    (exitStatusOf e = Some 114%Z -> NVMeConnect Output nvme target = None)
    /\ (exitStatusOf e <> Some 114%Z -> NVMeConnect Output nvme target = Some e).
Proof.
  intros Output nvme target out e HO.
  unfold NVMeConnect, nvmeConnect. fold (connectCommand nvme target). rewrite HO.
  destruct e as [[status|] text|text]; cbn [exitStatusOf].
  - destruct (Z.eqb_spec status 114) as [->|Hne]; split; intros H;
      try reflexivity; congruence.
  - split; [discriminate | reflexivity].
  - split; [discriminate | reflexivity].
Qed.

Lemma NVMeConnect_exit_status_witness :
  NVMeConnect (exitsWith 114) (NewNVMeTCP ∅) sampleTcpTarget = None
  /\ NVMeConnect (exitsWith 1) (NewNVMeTCP ∅) sampleTcpTarget
     = Some (ExitError (WaitStatus 1) "exit status").
Proof.
  split.
  - apply (proj1 (NVMeConnect_exit_status (exitsWith 114) (NewNVMeTCP ∅)
                    sampleTcpTarget "" _ eq_refl)).
    reflexivity.
  - apply (proj2 (NVMeConnect_exit_status (exitsWith 1) (NewNVMeTCP ∅)
                    sampleTcpTarget "" _ eq_refl)).
    discriminate.
Defined.

(** A connect invocation that succeeds returns nil. *)
Lemma NVMeConnect_success :
  forall Output nvme target out,
    Output (connectCommand nvme target) = (out, None) ->
    NVMeConnect Output nvme target = None.
Proof.
  intros Output nvme target out HO.
  unfold NVMeConnect, nvmeConnect. fold (connectCommand nvme target).
  now rewrite HO.
Qed.

(** C8.  [NVMeDisonnect] returns exactly the error of the disconnect
    invocation: nil when the invocation succeeds, and every error as it is,
    the exit status 114 that connect turns into success included. *)
Theorem NVMeDisonnect_propagates :
  forall Output nvme target,
    NVMeDisonnect Output nvme target = snd (Output (disconnectCommand nvme target))
    /\ (NVMeDisonnect Output nvme target = None
        <-> snd (Output (disconnectCommand nvme target)) = None)
    /\ NVMeDisonnect (exitsWith 114) nvme target
       = Some (ExitError (WaitStatus 114) "exit status").
Proof.
  intros Output nvme target.
  assert (H : NVMeDisonnect Output nvme target
              = snd (Output (disconnectCommand nvme target))).
  { unfold NVMeDisonnect, nvmeDisonnect. fold (disconnectCommand nvme target).
    now destruct (Output (disconnectCommand nvme target)). }
  split; [exact H|]. split; [now rewrite H | reflexivity].
Qed.

(** ** Initiator lookup *)

Lemma filter_not_empty_strings :
  forall lines,
    Forall (fun s => s <> "")
      (List.filter (fun line => negb (String.eqb line "")) lines).
Proof.
  intros lines. apply List.Forall_forall. intros x Hx.
  apply filter_In in Hx as [_ Hx].
  destruct (String.eqb_spec x ""); [discriminate | assumption].
Qed.

Lemma filter_all_empty :
  forall lines,
    Forall (fun s => s = "") lines ->
    List.filter (fun line => negb (String.eqb line "")) lines = [].
Proof.
  induction 1 as [|x l Hx _ IH]; [reflexivity|].
  cbn. subst x. cbn. exact IH.
Qed.

Lemma initiatorFiles_explicit :
  forall nvme filename, filename <> "" -> initiatorFiles nvme filename = [filename].
Proof.
  intros nvme filename Hne. unfold initiatorFiles.
  destruct (String.eqb_spec filename ""); [contradiction | reflexivity].
Qed.

Lemma initiatorFiles_single :
  forall nvme filename, exists f, initiatorFiles nvme filename = [f].
Proof.
  intros nvme filename. unfold initiatorFiles.
  destruct (String.eqb filename ""); [|eauto].
  destruct (negb _); eauto.
Qed.

(** C10.  [GetInitiators] on an explicit file name that [os.Stat] rejects
    returns the empty list and the error of [os.Stat]; on a file that exists
    and whose contents have no non-empty line it returns the empty list and
    nil; and no string it ever returns is empty. *)
Theorem GetInitiators_outcomes :
  forall Output Stat nvme filename,
    (forall e, filename <> "" -> Stat filename = Some e ->
       GetInitiators Output Stat nvme filename = ([], Some e))
    /\ (forall f, initiatorFiles nvme filename = [f] -> Stat f = None ->
          Forall (fun line => line = "")
            (strings.Split (fst (Output ["cat"; f])) strings.LF) ->
          GetInitiators Output Stat nvme filename = ([], None))
    /\ Forall (fun nqn => nqn <> "") (fst (GetInitiators Output Stat nvme filename)).
Proof.
  intros Output Stat nvme filename. unfold GetInitiators, getInitiators.
  split; [|split].
  - intros e Hne HS. rewrite (initiatorFiles_explicit _ _ Hne).
    cbn [fold_left readInitiatorFile]. now rewrite HS.
  - intros f Hf HS Hall. rewrite Hf.
    cbn [fold_left readInitiatorFile]. rewrite HS.
    destruct (Output ["cat"; f]) as [out cerr]. cbn [fst] in Hall.
    now rewrite (filter_all_empty _ Hall).
  - destruct (initiatorFiles_single nvme filename) as [f ->].
    cbn [fold_left readInitiatorFile].
    destruct (Stat f) as [e|].
    + cbn. constructor.
    + destruct (Output ["cat"; f]) as [out cerr].
      cbn [app].
      destruct (length _ =? 0); cbn [fst]; apply filter_not_empty_strings.
Qed.

Lemma GetInitiators_outcomes_witness :
  GetInitiators (prints (unlines ["nqn.2014-08.org.nvmexpress:uuid:host"]))
    (fun _ => Some (OtherError "no such file or directory"))
    (NewNVMeTCP ∅) "testdata/missing.nvme"
  = ([], Some (OtherError "no such file or directory"))
  /\ GetInitiators (prints nl) (fun _ => None) (NewNVMeTCP ∅) "testdata/no_nqn.nvme"
     = ([], None).
Proof.
  split.
  - apply (proj1 (GetInitiators_outcomes _ _ _ "testdata/missing.nvme"));
      [discriminate | reflexivity].
  - apply (proj1 (proj2 (GetInitiators_outcomes (prints nl) (fun _ => None)
                           (NewNVMeTCP ∅) "testdata/no_nqn.nvme"))
             "testdata/no_nqn.nvme");
      [reflexivity | reflexivity | repeat constructor].
Defined.

(** A file with initiator names gives them all, in order, and nil. *)
Example GetInitiators_two_names :
  GetInitiators
    (prints (unlines ["nqn.2014-08.org.nvmexpress:uuid:a"; "";
                      "nqn.2014-08.org.nvmexpress:uuid:b"]))
    (fun _ => None) (NewNVMeTCP ∅) "testdata/multiple_nqn.nvme"
  = (["nqn.2014-08.org.nvmexpress:uuid:a"; "nqn.2014-08.org.nvmexpress:uuid:b"],
     None).
Proof. reflexivity. Qed.

(** ** The mock *)

(** C7.  With the discovery switch clear, the mock discovery operations
    return as many targets as configured and nil; with the switch set they
    return no target and an error whose message contains [induced], the
    configured number playing no part. *)
Theorem mock_discover_cardinality :
  forall cfg faults address login,
    (InduceDiscoveryError faults = false ->
       (length (fst (mockDiscoverNVMeTCPTargets cfg faults address login))
          = MockNumberOfTCPTargets cfg
        /\ snd (mockDiscoverNVMeTCPTargets cfg faults address login) = None)
       /\ (length (fst (mockDiscoverNVMeFCTargets cfg faults address login))
             = MockNumberOfFCTargets cfg
           /\ snd (mockDiscoverNVMeFCTargets cfg faults address login) = None))
    /\ (InduceDiscoveryError faults = true ->
          exists e,
            mockDiscoverNVMeTCPTargets cfg faults address login = ([], Some e)
            /\ mockDiscoverNVMeFCTargets cfg faults address login = ([], Some e)
            /\ Contains (errorText e) "induced" = true).
Proof.
  intros cfg faults address login.
  unfold mockDiscoverNVMeTCPTargets, mockDiscoverNVMeFCTargets, mockDiscover.
  split; intros ->; cbn [fst snd].
  - now rewrite !length_map, !length_seq.
  - eexists. split; [reflexivity|]. split; reflexivity.
Qed.

Lemma mock_discover_cardinality_witness :
  length (fst (mockDiscoverNVMeTCPTargets (mkMockConfig 5 3 0 0)
                 (mkMockFaults false false false false false false false false false)
                 "1.1.1.1" true)) = 5
  /\ exists e,
       mockDiscoverNVMeTCPTargets (mkMockConfig 5 3 0 0)
         (mkMockFaults true false false false false false false false false)
         "1.1.1.1" false = ([], Some e)
       /\ Contains (errorText e) "induced" = true.
Proof.
  split.
  - apply (proj1 (mock_discover_cardinality (mkMockConfig 5 3 0 0)
                    (mkMockFaults false false false false false false false false false)
                    "1.1.1.1" true)).
    reflexivity.
  - destruct (proj2 (mock_discover_cardinality (mkMockConfig 5 3 0 0)
                       (mkMockFaults true false false false false false false false false)
                       "1.1.1.1" false) eq_refl) as (e & H1 & _ & H3).
    exists e. split; assumption.
Defined.

(** ** What an entry's record holds *)

Lemma fieldLine_TargetNqn :
  forall t l,
    TargetNqn (fieldLine t l)
    = match lineValue "subnqn:" l with Some v => v | None => TargetNqn t end.
Proof.
  intros t l. unfold fieldLine, lineValue.
  destruct (keyValue l) as [[key value]|]; [|reflexivity].
  repeat (match goal with
          | |- context [String.eqb key ?s] =>
              destruct (String.eqb_spec key s); [subst key; reflexivity|]
          end).
  reflexivity.
Qed.

Lemma fieldLine_Portal :
  forall t l,
    Portal (fieldLine t l)
    = match lineValue "traddr:" l with Some v => v | None => Portal t end.
Proof.
  intros t l. unfold fieldLine, lineValue.
  destruct (keyValue l) as [[key value]|]; [|reflexivity].
  repeat (match goal with
          | |- context [String.eqb key ?s] =>
              destruct (String.eqb_spec key s); [subst key; reflexivity|]
          end).
  reflexivity.
Qed.

Lemma last_in_list :
  forall (l : list (list string)) d, l <> [] -> In (List.last l d) l.
Proof.
  intros l d H. destruct (exists_last H) as (l' & a & ->).
  rewrite last_last. apply in_or_app. right. now left.
Qed.

Lemma removelast_in_list :
  forall (l : list (list string)) x, In x (List.removelast l) -> In x l.
Proof.
  intros l x H. destruct l as [|a l]; [contradiction|].
  rewrite (app_removelast_last a (l := a :: l)) by discriminate.
  apply in_or_app. now left.
Qed.

Lemma last_cons_default :
  forall (l : list string) v d, List.last (v :: l) d = List.last l v.
Proof.
  induction l as [|a l IH]; intros v d; [reflexivity|].
  change (List.last (v :: a :: l) d) with (List.last (a :: l) d).
  now rewrite !IH.
Qed.

(** The NQN of the record is the value of the last [subnqn:] line. *)
Lemma fold_fieldLine_TargetNqn :
  forall body t,
    TargetNqn (fold_left fieldLine body t)
    = List.last (valuesOf "subnqn:" body) (TargetNqn t).
Proof.
  induction body as [|l body IH]; intros t; [reflexivity|].
  cbn [fold_left]. rewrite IH, fieldLine_TargetNqn.
  unfold valuesOf. cbn [omap list_omap].
  destruct (lineValue "subnqn:" l) as [v|]; [|reflexivity].
  now rewrite last_cons_default.
Qed.

(** The portal of the record is the value of the last [traddr:] line. *)
Lemma fold_fieldLine_Portal :
  forall body t,
    Portal (fold_left fieldLine body t)
    = List.last (valuesOf "traddr:" body) (Portal t).
Proof.
  induction body as [|l body IH]; intros t; [reflexivity|].
  cbn [fold_left]. rewrite IH, fieldLine_Portal.
  unfold valuesOf. cbn [omap list_omap].
  destruct (lineValue "traddr:" l) as [v|]; [|reflexivity].
  now rewrite last_cons_default.
Qed.

Lemma valuesOf_not_empty :
  forall k body v, In v (valuesOf k body) -> v <> "".
Proof.
  intros k body v. unfold valuesOf.
  induction body as [|l body IH]; cbn [omap list_omap]; [contradiction|].
  destruct (lineValue k l) as [w|] eqn:E; [|exact IH].
  intros [<-|H]; [eapply lineValue_not_empty; eauto | now apply IH].
Qed.

Lemma last_values_not_empty :
  forall k body, List.last (valuesOf k body) "" <> "" <-> valuesOf k body <> [].
Proof.
  intros k body. split.
  - intros H E. rewrite E in H. now apply H.
  - intros H. apply (valuesOf_not_empty k body).
    destruct (exists_last H) as (l' & a & ->).
    rewrite last_last. apply in_or_app. right. now left.
Qed.

Lemma entryTarget_TargetNqn :
  forall body, TargetNqn (entryTarget body) <> "" <-> valuesOf "subnqn:" body <> [].
Proof.
  intros body. unfold entryTarget. rewrite fold_fieldLine_TargetNqn.
  apply last_values_not_empty.
Qed.

Lemma entryTarget_Portal :
  forall body, Portal (entryTarget body) <> "" <-> valuesOf "traddr:" body <> [].
Proof.
  intros body. unfold entryTarget. rewrite fold_fieldLine_Portal.
  apply last_values_not_empty.
Qed.

Lemma length_eqb_0_nil :
  forall (l : list string), (length l =? 0) = false <-> l <> [].
Proof. intros [|x l]; cbn; split; congruence. Qed.

Lemma flushed_spec :
  forall body,
    flushed body = true
    <-> otherTransport body = false /\ TargetNqn (entryTarget body) <> "".
Proof.
  intros body. unfold flushed.
  rewrite andb_true_iff, !negb_true_iff.
  destruct (String.eqb_spec (TargetNqn (entryTarget body)) ""); intuition congruence.
Qed.

(** The bodies of a well-formed log that get a record all have a subsystem
    NQN and a transport address. *)
Lemma wellFormed_returnedBodies :
  forall out, wellFormed out = true ->
    Forall (fun b => valuesOf "subnqn:" b <> [] /\ valuesOf "traddr:" b <> [])
      (returnedBodies out).
Proof.
  intros out. unfold wellFormed, returnedBodies, keptAtBoundaries, lastBody.
  rewrite andb_true_iff, forallb_forall. intros [Hpre Hes].
  assert (Hwf : forall b, In b (entries out) ->
            valuesOf "subnqn:" b <> [] /\ valuesOf "traddr:" b <> []).
  { intros b Hb. specialize (Hes b Hb). unfold wellFormedEntry in Hes.
    rewrite !andb_true_iff, !negb_true_iff, !length_eqb_0_nil in Hes. tauto. }
  apply List.Forall_forall. intros b Hb. apply in_app_or in Hb as [Hb|Hb].
  - apply Hwf. apply filter_In in Hb as [Hb _].
    now apply removelast_in_list.
  - destruct (entries out) as [|e es] eqn:E.
    + cbn [List.last] in Hb.
      destruct (flushed (preamble out)) eqn:F; [|contradiction].
      apply flushed_spec in F as [_ F]. apply entryTarget_TargetNqn in F.
      apply Nat.eqb_eq in Hpre. destruct (valuesOf "subnqn:" (preamble out));
        [congruence | discriminate].
    + destruct (flushed _); [|contradiction]. destruct Hb as [<-|[]].
      apply Hwf, last_in_list. discriminate.
Qed.

(** ** Counting the records of a well-formed log *)

Lemma wellFormedEntry_isTcpEntry :
  forall b, wellFormedEntry b = true -> isTcpEntry b = negb (otherTransport b).
Proof.
  intros b. unfold wellFormedEntry, isTcpEntry, otherTransport, skippedBy, notTcp.
  rewrite !andb_true_iff. intros [[H _] _]. apply Nat.eqb_eq in H.
  destruct (valuesOf "trtype:" b) as [|v [|w vs]]; try discriminate.
  cbn. now rewrite orb_false_r, andb_true_r, negb_involutive.
Qed.

Lemma wellFormedEntry_flushed :
  forall b, wellFormedEntry b = true -> flushed b = negb (otherTransport b).
Proof.
  intros b Hwf. unfold flushed.
  assert (H : TargetNqn (entryTarget b) <> "").
  { apply entryTarget_TargetNqn. unfold wellFormedEntry in Hwf.
    rewrite !andb_true_iff, !negb_true_iff, !length_eqb_0_nil in Hwf. tauto. }
  destruct (String.eqb_spec (TargetNqn (entryTarget b)) ""); [contradiction|].
  now rewrite andb_true_r.
Qed.

Lemma countTcp_wellFormed :
  forall es, forallb wellFormedEntry es = true ->
    List.filter isTcpEntry es = List.filter (fun b => negb (otherTransport b)) es.
Proof.
  intros es H. apply filter_ext_in. intros b Hb.
  apply wellFormedEntry_isTcpEntry. rewrite forallb_forall in H. now apply H.
Qed.

(** On well-formed discovery text [gonvme_tcp.go] returns one record per
    entry of the TCP transport and none for the others. *)
Lemma wellFormed_count :
  forall out, wellFormed out = true ->
    length (parseDiscovery out) = countTcp out
    /\ countTcp out + countOther out = length (entries out).
Proof.
  intros out Hwf. pose proof Hwf as Hwf'.
  unfold wellFormed in Hwf'. rewrite andb_true_iff in Hwf'.
  destruct Hwf' as [Hpre Hes].
  unfold countTcp, countOther. rewrite (countTcp_wellFormed _ Hes).
  split.
  - rewrite parseDiscovery_byEntries. unfold byEntries, returnedBodies.
    rewrite length_map, length_app. unfold keptAtBoundaries, lastBody.
    destruct (entries out) as [|e es] eqn:E.
    + cbn [List.removelast List.filter List.last length].
      destruct (flushed (preamble out)) eqn:F; [|reflexivity].
      apply flushed_spec in F as [_ F]. apply entryTarget_TargetNqn in F.
      apply Nat.eqb_eq in Hpre.
      destruct (valuesOf "subnqn:" (preamble out)); [congruence | discriminate].
    + assert (Hx : wellFormedEntry (List.last (e :: es) (preamble out)) = true).
      { rewrite forallb_forall in Hes. apply Hes, last_in_list. discriminate. }
      remember (List.removelast (e :: es)) as r eqn:Hr.
      remember (List.last (e :: es) (preamble out)) as x eqn:Hlast.
      assert (Hsplit : e :: es = r ++ [x])
        by (subst r x; apply app_removelast_last; discriminate).
      rewrite Hsplit, List.filter_app, length_app. f_equal.
      cbn [List.filter]. rewrite (wellFormedEntry_flushed _ Hx).
      now destruct (otherTransport x).
  - rewrite Nat.add_comm. apply filter_length.
Qed.

Example wellFormed_count_sample :
  length (parseDiscovery sampleLog) = countTcp sampleLog
  /\ countTcp sampleLog = 1 /\ countOther sampleLog = 1
  /\ parseDiscovery sampleLog = [sampleTcpTarget].
Proof.
  split; [apply (wellFormed_count sampleLog); vm_compute; reflexivity|].
  repeat split; vm_compute; reflexivity.
Qed.

(** ** Input with nothing to parse *)

Lemma isEntryHeader_known :
  forall l, isKnownLine l = false -> isEntryHeader l = false.
Proof.
  intros l. unfold isKnownLine, isEntryHeader.
  destruct (keyValue l) as [[key value]|]; [|reflexivity].
  cbn [existsb knownKeys]. now destruct (String.eqb key "=====Discovery").
Qed.

Lemma lineValue_known :
  forall k l, In k knownKeys -> isKnownLine l = false -> lineValue k l = None.
Proof.
  intros k l Hk. unfold isKnownLine, lineValue.
  destruct (keyValue l) as [[key value]|]; [|reflexivity].
  intros H. destruct (String.eqb_spec key k) as [->|]; [|reflexivity].
  exfalso. apply not_true_iff_false in H. apply H.
  apply existsb_exists. exists k. split; [assumption | apply String.eqb_refl].
Qed.

Lemma nothing_known_segments :
  forall lines, forallb (fun l => negb (isKnownLine l)) lines = true ->
    segments lines = (lines, []) /\ valuesOf "subnqn:" lines = [].
Proof.
  induction lines as [|l lines IH]; [now split|].
  cbn [forallb]. rewrite andb_true_iff, negb_true_iff. intros [Hl Hls].
  destruct (IH Hls) as [Hseg Hval]. cbn [segments]. rewrite Hseg.
  rewrite (isEntryHeader_known _ Hl). split; [reflexivity|].
  unfold valuesOf in *. cbn [omap list_omap].
  rewrite (lineValue_known "subnqn:" l); [assumption| |assumption].
  cbn. tauto.
Qed.

(** [gonvme_tcp.go] returns no record for output in which no line is one the
    parser acts on: the empty output, output with the header line only,
    any other text. *)
Lemma parseDiscovery_nothing_known :
  forall out,
    forallb (fun l => negb (isKnownLine l)) (strings.Split out strings.LF) = true ->
    parseDiscovery out = [].
Proof.
  intros out H. rewrite parseDiscovery_byEntries.
  unfold byEntries, returnedBodies, keptAtBoundaries, lastBody, entries, preamble.
  destruct (nothing_known_segments _ H) as [-> Hval]. cbn [fst snd].
  cbn [List.removelast List.filter List.last app].
  destruct (flushed _) eqn:F; [|reflexivity].
  apply flushed_spec in F as [_ F]. apply entryTarget_TargetNqn in F.
  contradiction.
Qed.

(** Once the command has succeeded, [discoverNVMeTCPTargets] never returns
    an error, and it returns no record when there is nothing to parse. *)
Lemma discoverNVMeTCPTargets_no_parse_error :
  forall Output nvme address login out,
    Output (discoverCommand nvme address) = (out, None) ->
    DiscoverNVMeTCPTargets Output nvme address login = (parseDiscovery out, None)
    /\ (forallb (fun l => negb (isKnownLine l)) (strings.Split out strings.LF) = true ->
        DiscoverNVMeTCPTargets Output nvme address login = ([], None)).
Proof.
  intros Output nvme address login out HO.
  unfold DiscoverNVMeTCPTargets, discoverNVMeTCPTargets.
  fold (discoverCommand nvme address). rewrite HO.
  split; [reflexivity|]. intros H. now rewrite (parseDiscovery_nothing_known _ H).
Qed.

(** A command that fails gives no record and its error. *)
Lemma discoverNVMeTCPTargets_command_error :
  forall Output nvme address login out e,
    Output (discoverCommand nvme address) = (out, Some e) ->
    DiscoverNVMeTCPTargets Output nvme address login = ([], Some e).
Proof.
  intros Output nvme address login out e HO.
  unfold DiscoverNVMeTCPTargets, discoverNVMeTCPTargets.
  fold (discoverCommand nvme address). now rewrite HO.
Qed.

Example discover_empty_output :
  DiscoverNVMeTCPTargets (prints "") (NewNVMeTCP ∅) "1.1.1.1" false = ([], None)
  /\ DiscoverNVMeTCPTargets (prints sampleNoRecords) (NewNVMeTCP ∅) "1.1.1.1" false
     = ([], None).
Proof. split; reflexivity. Qed.

(** ** The claims on the discovery parser *)

(** C9, as the code has it.  A line with at least two fields whose first
    field is the entry-header literal leaves the record in progress empty
    and the skip flag clear, whatever the state before it, in both copies of
    the parser; and the records returned are, one for one, the records
    [entryTarget] builds from the lines of single entries, the entries being
    delimited by those lines, so that no value read in one entry shows in
    the record of another. *)
Theorem entry_boundary_resets :
  forall st line out,
    isEntryHeader line = true ->
    (nvmeTarget (loopBody st line) = emptyTarget
     /\ skipIteration (loopBody st line) = false)
    /\ (nvmeTarget (SecondCopy.loopBody st line) = emptyTarget
        /\ skipIteration (SecondCopy.loopBody st line) = false)
    /\ parseDiscovery out = map entryTarget (returnedBodies out)
    /\ SecondCopy.parseDiscovery out
       = map entryTarget (SecondCopy.returnedBodies out).
Proof.
  intros st line out H.
  rewrite (loopBody_header _ _ H), (secondCopy_loopBody_header _ _ H).
  repeat split.
  - apply parseDiscovery_byEntries.
  - apply secondCopy_parseDiscovery_byEntries.
Qed.

Lemma entry_boundary_resets_witness :
  nvmeTarget (loopBody (mkLoopState [] sampleFcTarget 1 true)
                "=====Discovery Log Entry 1======") = emptyTarget
  /\ skipIteration (loopBody (mkLoopState [] sampleFcTarget 1 true)
                      "=====Discovery Log Entry 1======") = false.
Proof.
  apply (entry_boundary_resets (mkLoopState [] sampleFcTarget 1 true)
           "=====Discovery Log Entry 1======" sampleLog).
  reflexivity.
Defined.

(** C9 as stated fails: a line that holds the entry-header literal and no
    second field is passed over by the loop ([len(tokens) < 2]), so it
    resets nothing, in either copy; the portal read before such a line ends
    up in one record with the NQN read after it. *)
Lemma entry_boundary_resets_counterexample :
  ~ (forall st line,
       firstFieldIsHeader line = true ->
       (nvmeTarget (loopBody st line) = emptyTarget
        /\ skipIteration (loopBody st line) = false)
       /\ (nvmeTarget (SecondCopy.loopBody st line) = emptyTarget
           /\ skipIteration (SecondCopy.loopBody st line) = false)).
Proof.
  intros H.
  destruct (H (mkLoopState [] sampleFcTarget 1 true) "=====Discovery" eq_refl)
    as [[_ Hs] _].
  discriminate Hs.
Qed.

(** The leak on a whole log: one record, with the portal of the lines before
    the bare literal and the NQN of the line after it. *)
Example bare_header_leaks :
  firstFieldIsHeader "=====Discovery" = true
  /\ isEntryHeader "=====Discovery" = false
  /\ parseDiscovery sampleBareHeader
     = [mkNVMeTarget "1.1.1.1"
          "nqn.1111-11.com.dell:powerstore:00:a1a1a1a111a1111a111a"
          "" "" "" "" "" "" "" "tcp" ""].
Proof. repeat split; vm_compute; reflexivity. Qed.

(** The bodies that get a record are entries of the log (or its preamble,
    when the log has no entry), in the order of the log. *)
Lemma returnedBodies_are_entries :
  forall out b, In b (returnedBodies out) ->
    otherTransport b = false
    /\ (In b (entries out) \/ (entries out = [] /\ b = preamble out)).
Proof.
  intros out b Hb. unfold returnedBodies, keptAtBoundaries in Hb.
  apply in_app_or in Hb as [Hb|Hb].
  - apply filter_In in Hb as [Hb Hk]. apply negb_true_iff in Hk.
    split; [exact Hk|]. left. now apply removelast_in_list.
  - destruct (flushed (lastBody out)) eqn:F; [|contradiction].
    destruct Hb as [<-|[]]. apply flushed_spec in F as [F _].
    split; [exact F|]. unfold lastBody.
    destruct (entries out) as [|e es] eqn:E; [right; now split|].
    left. apply last_in_list. discriminate.
Qed.

(** C4, as the code has it.  Every record returned is the record of one
    whole entry that is not of another transport; its NQN is non-empty
    exactly when that entry has a [subnqn:] line and its portal exactly when
    it has a [traddr:] line; the record flushed at the end of input has a
    non-empty NQN; and on well-formed text, where every entry has both
    lines, every record returned has a non-empty NQN and a non-empty
    portal. *)
Theorem returned_targets_populated :
  forall out,
    parseDiscovery out = map entryTarget (returnedBodies out)
    /\ (forall b, In b (returnedBodies out) ->
          otherTransport b = false
          /\ (TargetNqn (entryTarget b) <> "" <-> valuesOf "subnqn:" b <> [])
          /\ (Portal (entryTarget b) <> "" <-> valuesOf "traddr:" b <> []))
    /\ (flushed (lastBody out) = true ->
          TargetNqn (entryTarget (lastBody out)) <> "")
    /\ (wellFormed out = true ->
          Forall (fun t => TargetNqn t <> "" /\ Portal t <> "") (parseDiscovery out)).
Proof.
  intros out. split; [apply parseDiscovery_byEntries|].
  split; [|split].
  - intros b Hb. split; [now apply (returnedBodies_are_entries out)|].
    split; [apply entryTarget_TargetNqn | apply entryTarget_Portal].
  - intros F. now apply flushed_spec in F.
  - intros Hwf. rewrite parseDiscovery_byEntries. unfold byEntries.
    apply List.Forall_map.
    eapply List.Forall_impl; [|apply (wellFormed_returnedBodies _ Hwf)].
    intros b [Hn Hp]. split;
      [now apply entryTarget_TargetNqn | now apply entryTarget_Portal].
Qed.

Lemma returned_targets_populated_witness :
  Forall (fun t => TargetNqn t <> "" /\ Portal t <> "") (parseDiscovery sampleLog).
Proof.
  apply (proj2 (proj2 (proj2 (returned_targets_populated sampleLog)))).
  vm_compute. reflexivity.
Defined.

(** C4 as stated fails: a TCP entry that names its subsystem and has no
    [traddr:] line is returned with an empty portal. *)
Lemma returned_targets_populated_counterexample :
  ~ (forall out t, In t (parseDiscovery out) ->
       TargetNqn t <> "" /\ Portal t <> "").
Proof.
  intros H.
  destruct (H sampleNoPortal
              (mkNVMeTarget ""
                 "nqn.1111-11.com.dell:powerstore:00:a1a1a1a111a1111a111a"
                 "" "" "" "" "" "" "" "tcp" "")) as [_ Hp].
  - vm_compute. now left.
  - now apply Hp.
Qed.

(** C2 on the second copy.  Given a TCP entry followed by a Fibre Channel
    entry, the second copy returns the Fibre Channel record alone, where
    [gonvme_tcp.go] returns the TCP record alone. *)
Theorem secondCopy_skips_tcp_entries :
  SecondCopy.parseDiscovery sampleLogTcpFirst = [sampleFcTarget]
  /\ parseDiscovery sampleLogTcpFirst = [sampleTcpTarget]
  /\ wellFormed sampleLogTcpFirst = true
  /\ countTcp sampleLogTcpFirst = 1
  /\ countOther sampleLogTcpFirst = 1.
Proof. repeat split; vm_compute; reflexivity. Qed.

(** In general the second copy appends at a boundary only entries without a
    TCP [trtype:] line. *)
Lemma secondCopy_boundary_entries_not_tcp :
  forall out b, In b (keptAtBoundaries SecondCopy.isTcp out) ->
    ~ In NVMeNVMeTransportTypeTCP (valuesOf "trtype:" b).
Proof.
  intros out b Hb Hin. unfold keptAtBoundaries in Hb.
  apply filter_In in Hb as [_ Hk]. apply negb_true_iff in Hk.
  apply not_true_iff_false in Hk. apply Hk.
  unfold skippedBy. apply existsb_exists.
  exists NVMeNVMeTransportTypeTCP. split; [assumption | apply String.eqb_refl].
Qed.

(** C3 on the second copy.  The second copy appends the record in progress
    at the end of input whatever the state: for a log with no record it
    returns one empty record, and for the sample log its last entry is
    returned although the loop ends with the skip flag set.
    [gonvme_tcp.go] returns nothing for the first and flushes by its
    guard. *)
Theorem secondCopy_flushes_unconditionally :
  SecondCopy.parseDiscovery sampleNoRecords = [emptyTarget]
  /\ parseDiscovery sampleNoRecords = []
  /\ skipIteration
       (fold_left SecondCopy.loopBody (strings.Split sampleLog strings.LF) initState)
     = true
  /\ SecondCopy.parseDiscovery sampleLog = [sampleFcTarget; sampleTcpTarget].
Proof. repeat split; vm_compute; reflexivity. Qed.

(** The second copy never returns the empty sequence. *)
Lemma secondCopy_never_empty : forall out, SecondCopy.parseDiscovery out <> [].
Proof.
  intros out. rewrite secondCopy_parseDiscovery_byEntries.
  unfold SecondCopy.byEntries, SecondCopy.returnedBodies.
  rewrite map_app. cbn [map]. intros H. now apply app_eq_nil in H as [_ H].
Qed.

(** [gonvme_tcp.go] flushes the body in progress at the end of input exactly
    when the skip flag is clear and the NQN is non-empty. *)
Lemma flush_at_end_of_input :
  forall out,
    parseDiscovery out
    = map entryTarget (keptAtBoundaries notTcp out)
      ++ (if flushed (lastBody out) then [entryTarget (lastBody out)] else [])
    /\ (flushed (lastBody out) = true
        <-> otherTransport (lastBody out) = false
            /\ TargetNqn (entryTarget (lastBody out)) <> "").
Proof.
  intros out. split; [|apply flushed_spec].
  rewrite parseDiscovery_byEntries. unfold byEntries, returnedBodies.
  rewrite map_app. now destruct (flushed (lastBody out)).
Qed.

(** C5 on the second copy.  For the empty output of a command that
    succeeded the second copy returns one empty record, not the empty
    sequence; [gonvme_tcp.go] returns the empty sequence.  Neither returns
    an error. *)
Theorem secondCopy_empty_output :
  SecondCopy.discoverNVMeTCPTargets (prints "") (NewNVMeTCP ∅) "1.1.1.1" false
    = ([emptyTarget], None)
  /\ DiscoverNVMeTCPTargets (prints "") (NewNVMeTCP ∅) "1.1.1.1" false
     = ([], None).
Proof. split; reflexivity. Qed.

(** * Further properties of the code *)

(** ** Building the command *)

Lemma getChrootDirectory_configured :
  forall nvme dir,
    options nvme !! ChrootDirectory = Some dir -> dir <> "" ->
    getChrootDirectory nvme = dir.
Proof.
  intros nvme dir H Hd. unfold getChrootDirectory. rewrite H. cbn -[String.eqb].
  destruct (String.eqb_spec dir ""); [contradiction | reflexivity].
Qed.

(** X1.  [getChrootDirectory] never returns the empty string: it returns
    ["/"] exactly when the option is missing, empty or ["/"] itself, and the
    configured directory otherwise. *)
Theorem getChrootDirectory_default :
  forall nvme,
    getChrootDirectory nvme <> ""
    /\ (getChrootDirectory nvme = "/"
        <-> options nvme !! ChrootDirectory = None
            \/ options nvme !! ChrootDirectory = Some ""
            \/ options nvme !! ChrootDirectory = Some "/")
    /\ (forall dir, options nvme !! ChrootDirectory = Some dir -> dir <> "" ->
          getChrootDirectory nvme = dir).
Proof.
  intros nvme. unfold getChrootDirectory.
  destruct (options nvme !! ChrootDirectory) as [d|]; cbn -[String.eqb].
  - destruct (String.eqb_spec d "") as [->|Hd].
    + split; [discriminate|]. split; [tauto|]. intros dir [= <-] H. now elim H.
    + split; [assumption|]. split.
      * split; [intros ->; tauto|]. intros [H|[H|H]]; congruence.
      * intros dir [= <-] _. reflexivity.
  - cbn. split; [discriminate|]. split; [tauto|]. discriminate.
Qed.

Lemma getChrootDirectory_default_witness :
  getChrootDirectory (NewNVMeTCP {[ ChrootDirectory := "/noderoot" ]}) = "/noderoot".
Proof.
  apply (proj2 (proj2 (getChrootDirectory_default
                         (NewNVMeTCP {[ ChrootDirectory := "/noderoot" ]})))).
  - reflexivity.
  - discriminate.
Defined.

(** X2.  [buildNVMeCommand] never alters the command it is given: it puts a
    prefix before it that is the same for every command, empty when the
    chroot directory is ["/"] and [chroot <directory>] otherwise. *)
Theorem buildNVMeCommand_prefix :
  forall nvme,
    exists prefix,
      (forall cmd, buildNVMeCommand nvme cmd = prefix ++ cmd)
      /\ (getChrootDirectory nvme = "/" -> prefix = [])
      /\ (getChrootDirectory nvme <> "/" ->
            prefix = ["chroot"; getChrootDirectory nvme]).
Proof.
  intros nvme. unfold buildNVMeCommand.
  destruct (String.eqb_spec (getChrootDirectory nvme) "/") as [E|E].
  - exists []. split; [reflexivity|]. split; [reflexivity | contradiction].
  - exists ["chroot"; getChrootDirectory nvme].
    split; [reflexivity|]. split; [contradiction | reflexivity].
Qed.

Lemma buildNVMeCommand_prefix_witness :
  exists prefix,
    (forall cmd, buildNVMeCommand (NewNVMeTCP ∅) cmd = prefix ++ cmd)
    /\ prefix = [].
Proof.
  destruct (buildNVMeCommand_prefix (NewNVMeTCP ∅)) as (prefix & H & H0 & _).
  exists prefix. split; [exact H | apply H0; reflexivity].
Defined.

(** X3.  With a chroot directory configured (not empty, not ["/"]) the
    command built is [chroot], the directory, then the command given: two
    items longer, as [TestBuildNVMECommand] expects. *)
Theorem buildNVMeCommand_chroot :
  forall opts dir cmd,
    opts !! ChrootDirectory = Some dir -> dir <> "" -> dir <> "/" ->
    buildNVMeCommand (NewNVMeTCP opts) cmd = "chroot" :: dir :: cmd
    /\ length (buildNVMeCommand (NewNVMeTCP opts) cmd) = length cmd + 2.
Proof.
  intros opts dir cmd Hl Hd Hs.
  assert (E : getChrootDirectory (NewNVMeTCP opts) = dir)
    by (apply getChrootDirectory_configured; assumption).
  unfold buildNVMeCommand. rewrite E.
  destruct (String.eqb_spec dir "/"); [contradiction|].
  split; [reflexivity|]. cbn [app length]. lia.
Qed.

Lemma buildNVMeCommand_chroot_witness :
  buildNVMeCommand (NewNVMeTCP {[ ChrootDirectory := "/test" ]}) ["/bin/ls"]
  = ["chroot"; "/test"; "/bin/ls"].
Proof.
  apply (buildNVMeCommand_chroot {[ ChrootDirectory := "/test" ]} "/test" ["/bin/ls"]).
  - reflexivity.
  - discriminate.
  - discriminate.
Defined.

(** ** Discovery: the whole function *)

(** X4.  The error [DiscoverNVMeTCPTargets] returns is the error of the
    discover command and nothing else; with an error it returns no target;
    and the [login] argument has no effect on the result. *)
Theorem DiscoverNVMeTCPTargets_error :
  forall Output nvme address login,
    snd (DiscoverNVMeTCPTargets Output nvme address login)
    = snd (Output (discoverCommand nvme address))
    /\ (snd (DiscoverNVMeTCPTargets Output nvme address login) <> None ->
        fst (DiscoverNVMeTCPTargets Output nvme address login) = [])
    /\ DiscoverNVMeTCPTargets Output nvme address login
       = DiscoverNVMeTCPTargets Output nvme address (negb login).
Proof.
  intros Output nvme address login.
  unfold DiscoverNVMeTCPTargets, discoverNVMeTCPTargets.
  fold (discoverCommand nvme address).
  destruct (Output (discoverCommand nvme address)) as [out [e|]]; cbn [fst snd].
  - repeat split.
  - split; [reflexivity|]. split; [congruence | reflexivity].
Qed.

Lemma DiscoverNVMeTCPTargets_error_witness :
  fst (DiscoverNVMeTCPTargets
         (printsAndFails sampleLog (ExitError (WaitStatus 1) "exit status 1"))
         (NewNVMeTCP ∅) "1.1.1.1" true) = [].
Proof.
  apply (proj1 (proj2 (DiscoverNVMeTCPTargets_error
                         (printsAndFails sampleLog
                            (ExitError (WaitStatus 1) "exit status 1"))
                         (NewNVMeTCP ∅) "1.1.1.1" true))).
  discriminate.
Defined.

(** ** Connect *)

(** X5.  [NVMeConnect] returns nil exactly when the connect invocation
    succeeded or failed with exit status 114. *)
Theorem NVMeConnect_nil_iff :
  forall Output nvme target,
    NVMeConnect Output nvme target = None
    <-> snd (Output (connectCommand nvme target)) = None
        \/ exists e, snd (Output (connectCommand nvme target)) = Some e
                     /\ exitStatusOf e = Some 114%Z.
Proof.
  intros Output nvme target. unfold NVMeConnect, nvmeConnect.
  fold (connectCommand nvme target).
  destruct (Output (connectCommand nvme target)) as [out [e|]]; cbn [snd].
  - destruct e as [[status|] text|text]; cbn [exitStatusOf].
    + destruct (Z.eqb_spec status 114) as [->|Hne]; split.
      * intros _. right. eexists. split; reflexivity.
      * reflexivity.
      * discriminate.
      * intros [H|(e & [= <-] & [= H])]; congruence.
    + split; [discriminate|]. intros [H|(e & [= <-] & H)]; discriminate.
    + split; [discriminate|]. intros [H|(e & [= <-] & H)]; discriminate.
  - split; [now left | reflexivity].
Qed.

(** ** Initiator lookup *)

Lemma initiatorFiles_default :
  forall nvme, initiatorFiles nvme "" = [defaultInitiatorFile nvme].
Proof.
  intros nvme. unfold initiatorFiles, defaultInitiatorFile. cbn [String.eqb].
  now destruct (String.eqb (getChrootDirectory nvme) "/").
Qed.

Lemma defaultInitiatorFile_not_empty : forall nvme, defaultInitiatorFile nvme <> "".
Proof.
  intros nvme. unfold defaultInitiatorFile.
  destruct (String.eqb (getChrootDirectory nvme) "/"); [discriminate|].
  destruct (getChrootDirectory nvme); discriminate.
Qed.

(** X6.  Without a file name [GetInitiators] does what it does for the
    default file: [/etc/nvme/hostnqn], or the chroot directory followed by
    [//etc/nvme/hostnqn] when one is configured. *)
Theorem GetInitiators_default_file :
  forall Output Stat nvme,
    GetInitiators Output Stat nvme ""
    = GetInitiators Output Stat nvme (defaultInitiatorFile nvme)
    /\ (getChrootDirectory nvme = "/" ->
        defaultInitiatorFile nvme = "/etc/nvme/hostnqn")
    /\ (getChrootDirectory nvme <> "/" ->
        defaultInitiatorFile nvme
        = String.append (getChrootDirectory nvme) "//etc/nvme/hostnqn").
Proof.
  intros Output Stat nvme. split; [|split].
  - unfold GetInitiators, getInitiators.
    now rewrite initiatorFiles_default,
      (initiatorFiles_explicit _ _ (defaultInitiatorFile_not_empty nvme)).
  - intros E. unfold defaultInitiatorFile. now rewrite E.
  - intros E. unfold defaultInitiatorFile.
    destruct (String.eqb_spec (getChrootDirectory nvme) "/"); [contradiction|].
    reflexivity.
Qed.

Lemma GetInitiators_default_file_witness :
  defaultInitiatorFile (NewNVMeTCP {[ ChrootDirectory := "/noderoot" ]})
  = "/noderoot//etc/nvme/hostnqn".
Proof.
  refine (proj2 (proj2 (GetInitiators_default_file (prints "") (fun _ => None)
                          (NewNVMeTCP {[ ChrootDirectory := "/noderoot" ]}))) _).
  vm_compute. discriminate.
Defined.

Lemma getInitiators_stat_ok :
  forall Output Stat nvme filename f,
    initiatorFiles nvme filename = [f] -> Stat f = None ->
    getInitiators Output Stat nvme filename
    = (List.filter (fun line => negb (String.eqb line ""))
         (strings.Split (fst (Output ["cat"; f])) strings.LF),
       None).
Proof.
  intros Output Stat nvme filename f Hf HS.
  unfold getInitiators. rewrite Hf.
  cbn [fold_left readInitiatorFile]. rewrite HS.
  destruct (Output ["cat"; f]) as [out cerr]. cbn [fst app].
  now destruct (length _ =? 0).
Qed.

(** X7.  When [os.Stat] accepts the file, [GetInitiators] returns the
    non-empty lines of what [cat] printed, in order and untouched, and nil:
    an error of [cat] itself is never returned. *)
Theorem GetInitiators_lines :
  forall Output Stat nvme filename f,
    initiatorFiles nvme filename = [f] -> Stat f = None ->
    GetInitiators Output Stat nvme filename
    = (List.filter (fun line => negb (String.eqb line ""))
         (strings.Split (fst (Output ["cat"; f])) strings.LF),
       None).
Proof.
  intros Output Stat nvme filename f Hf HS.
  unfold GetInitiators. now apply getInitiators_stat_ok.
Qed.

Lemma GetInitiators_lines_witness :
  GetInitiators
    (printsAndFails (unlines ["nqn.2014-08.org.nvmexpress:uuid:a"; " "])
       (ExitError (WaitStatus 1) "exit status 1"))
    (fun _ => None) (NewNVMeTCP ∅) "testdata/initiatorname.nvme"
  = (["nqn.2014-08.org.nvmexpress:uuid:a"; " "], None).
Proof.
  exact (GetInitiators_lines
           (printsAndFails (unlines ["nqn.2014-08.org.nvmexpress:uuid:a"; " "])
              (ExitError (WaitStatus 1) "exit status 1"))
           (fun _ => None) (NewNVMeTCP ∅) "testdata/initiatorname.nvme"
           "testdata/initiatorname.nvme" eq_refl eq_refl).
Defined.

(** X8.  The error [GetInitiators] returns is the error of [os.Stat] on the
    one file it looks at, and whenever it returns an error the list is
    empty. *)
Theorem GetInitiators_error :
  forall Output Stat nvme filename,
    exists f,
      initiatorFiles nvme filename = [f]
      /\ snd (GetInitiators Output Stat nvme filename) = Stat f
      /\ (snd (GetInitiators Output Stat nvme filename) <> None ->
          fst (GetInitiators Output Stat nvme filename) = []).
Proof.
  intros Output Stat nvme filename.
  destruct (initiatorFiles_single nvme filename) as [f Hf].
  exists f. split; [exact Hf|].
  destruct (Stat f) as [e|] eqn:HS.
  - unfold GetInitiators, getInitiators. rewrite Hf.
    cbn [fold_left readInitiatorFile]. rewrite HS. cbn. split; reflexivity.
  - unfold GetInitiators.
    rewrite (getInitiators_stat_ok Output Stat nvme filename f Hf HS). cbn [fst snd].
    split; [reflexivity | congruence].
Qed.

Lemma GetInitiators_error_witness :
  exists f,
    initiatorFiles (NewNVMeTCP ∅) "testdata/missing.nvme" = [f]
    /\ fst (GetInitiators (prints "nqn.a")
              (fun _ => Some (OtherError "no such file or directory"))
              (NewNVMeTCP ∅) "testdata/missing.nvme") = [].
Proof.
  destruct (GetInitiators_error (prints "nqn.a")
              (fun _ => Some (OtherError "no such file or directory"))
              (NewNVMeTCP ∅) "testdata/missing.nvme") as (f & Hf & Hs & Hn).
  exists f. split; [exact Hf|]. apply Hn. rewrite Hs. discriminate.
Defined.

Lemma Split_line :
  forall l rest,
    hasByte strings.LF l = false ->
    strings.Split (String.append l (String.append nl rest)) strings.LF
    = l :: strings.Split rest strings.LF.
Proof.
  induction l as [|c l IH]; intros rest H.
  - cbn. reflexivity.
  - cbn [hasByte] in H. apply orb_false_elim in H as [Hc Hl].
    change (String.append (String c l) (String.append nl rest))
      with (String c (String.append l (String.append nl rest))).
    cbn [strings.Split]. rewrite Hc, (IH _ Hl). reflexivity.
Qed.

Lemma Split_unlines :
  forall ls,
    Forall (fun l => hasByte strings.LF l = false) ls ->
    strings.Split (unlines ls) strings.LF = ls ++ [""].
Proof.
  induction 1 as [|l ls Hl _ IH]; [reflexivity|].
  cbn [unlines fold_right]. fold (unlines ls).
  now rewrite (Split_line _ _ Hl), IH.
Qed.

Lemma filter_names :
  forall names,
    Forall (fun n => n <> "") names ->
    List.filter (fun line => negb (String.eqb line "")) (names ++ [""]) = names.
Proof.
  induction 1 as [|n names Hn _ IH]; [reflexivity|].
  cbn [app List.filter]. destruct (String.eqb_spec n ""); [contradiction|].
  cbn [negb]. now rewrite IH.
Qed.

(** X9.  Round trip: for a file that holds one initiator name per line, each
    ended by a line feed, [GetInitiators] returns exactly those names, in
    order, and nil. *)
Theorem GetInitiators_round_trip :
  forall Output Stat nvme filename f names,
    initiatorFiles nvme filename = [f] -> Stat f = None ->
    fst (Output ["cat"; f]) = unlines names ->
    Forall (fun n => n <> "") names ->
    Forall (fun n => hasByte strings.LF n = false) names ->
    GetInitiators Output Stat nvme filename = (names, None).
Proof.
  intros Output Stat nvme filename f names Hf HS Hout Hne Hlf.
  unfold GetInitiators.
  rewrite (getInitiators_stat_ok Output Stat nvme filename f Hf HS), Hout.
  now rewrite (Split_unlines _ Hlf), (filter_names _ Hne).
Qed.

Lemma GetInitiators_round_trip_witness :
  GetInitiators
    (prints (unlines ["nqn.2014-08.org.nvmexpress:uuid:a";
                      "nqn.2014-08.org.nvmexpress:uuid:b"]))
    (fun _ => None) (NewNVMeTCP ∅) "testdata/multiple_nqn.nvme"
  = (["nqn.2014-08.org.nvmexpress:uuid:a"; "nqn.2014-08.org.nvmexpress:uuid:b"],
     None).
Proof.
  apply (GetInitiators_round_trip _ _ _ _ "testdata/multiple_nqn.nvme").
  - reflexivity.
  - reflexivity.
  - reflexivity.
  - repeat constructor; discriminate.
  - repeat constructor.
Defined.

(** ** The discovery parser, line by line *)

Lemma parseDiscovery_parseLines :
  forall out, parseDiscovery out = parseLines (strings.Split out strings.LF).
Proof. reflexivity. Qed.

Lemma loopBody_unknown :
  forall st line, isKnownLine line = false -> loopBody st line = st.
Proof.
  intros st line. unfold isKnownLine, keyValue, loopBody.
  destruct (strings.Fields line) as [|k [|v vs]]; try reflexivity.
  cbn [length Nat.ltb Nat.leb existsb knownKeys]. intros H.
  repeat (let E := fresh "E" in
          apply orb_false_elim in H as [E H]; rewrite E).
  reflexivity.
Qed.

Lemma fold_loopBody_known :
  forall lines st,
    fold_left loopBody lines st
    = fold_left loopBody (List.filter isKnownLine lines) st.
Proof.
  induction lines as [|l lines IH]; intros st; [reflexivity|].
  cbn [fold_left List.filter]. destruct (isKnownLine l) eqn:E.
  - cbn [fold_left]. apply IH.
  - rewrite (loopBody_unknown _ _ E). apply IH.
Qed.

(** X10.  Lines the parser does not act on (fewer than two fields, or a
    first field that is not one of its ten keys) have no effect: the result
    is the one for the log with those lines taken out. *)
Theorem parseLines_ignores_unknown :
  forall lines, parseLines lines = parseLines (List.filter isKnownLine lines).
Proof.
  intros lines. unfold parseLines. now rewrite fold_loopBody_known.
Qed.

Lemma fold_loopBody_body :
  forall body st,
    forallb (fun l => negb (isEntryHeader l)) body = true ->
    fold_left loopBody body st = afterBody notTcp st body.
Proof.
  induction body as [|l body IH]; intros st H.
  - now rewrite afterBody_nil.
  - cbn [forallb] in H. apply andb_true_iff in H as [Hl Hb].
    apply negb_true_iff in Hl.
    cbn [fold_left]. rewrite (loopBody_field _ _ Hl), (IH _ Hb).
    apply afterBody_cons.
Qed.

(** X11.  When the log has an entry header, the lines before the first one
    do not count: whatever key/value lines they hold, the result is the one
    for the log that starts at that header. *)
Theorem parseLines_drops_preamble :
  forall pre header rest,
    forallb (fun l => negb (isEntryHeader l)) pre = true ->
    isEntryHeader header = true ->
    parseLines (pre ++ header :: rest) = parseLines (header :: rest).
Proof.
  intros pre header rest Hpre Hh. unfold parseLines.
  rewrite fold_left_app. cbn [fold_left].
  rewrite (fold_loopBody_body _ _ Hpre), !(loopBody_header _ _ Hh).
  reflexivity.
Qed.

Lemma parseLines_drops_preamble_witness :
  parseLines (["trtype:  fc"; "subnqn:  nqn.stray"]
              ++ "=====Discovery Log Entry 0======"
                 :: ["trtype:  tcp"; "subnqn:  nqn.a"; "traddr:  1.1.1.1"])
  = parseLines ("=====Discovery Log Entry 0======"
                :: ["trtype:  tcp"; "subnqn:  nqn.a"; "traddr:  1.1.1.1"]).
Proof.
  apply parseLines_drops_preamble; reflexivity.
Defined.

(** Without any entry header the key/value lines make one record. *)
Example parseDiscovery_no_header :
  parseDiscovery sampleNoHeader
  = [mkNVMeTarget "1.1.1.1" "nqn.2014-08.org.nvmexpress.discovery"
       "" "" "" "" "" "" "" "tcp" ""].
Proof. vm_compute. reflexivity. Qed.

(** ** What the fields of a record hold *)

Section LastValue.

Variable k : string.
Variable g : NVMeTarget -> string.

Hypothesis fieldLine_g :
  forall t l,
    g (fieldLine t l) = match lineValue k l with Some v => v | None => g t end.

Lemma fold_fieldLine_last :
  forall body t,
    g (fold_left fieldLine body t) = List.last (valuesOf k body) (g t).
Proof.
  induction body as [|l body IH]; intros t; [reflexivity|].
  cbn [fold_left]. rewrite IH, fieldLine_g.
  unfold valuesOf. cbn [omap list_omap].
  destruct (lineValue k l) as [v|]; [|reflexivity].
  now rewrite last_cons_default.
Qed.

End LastValue.

Ltac field_step :=
  intros t l; unfold fieldLine, lineValue;
  destruct (keyValue l) as [[key value]|]; [|reflexivity];
  repeat (match goal with
          | |- context [String.eqb key ?s] =>
              destruct (String.eqb_spec key s); [subst key; reflexivity|]
          end);
  reflexivity.

Lemma fieldLine_fields :
  Forall (fun kg =>
            snd kg emptyTarget = ""
            /\ forall t l,
                 snd kg (fieldLine t l)
                 = match lineValue (fst kg) l with
                   | Some v => v
                   | None => snd kg t
                   end)
    fieldOfKey.
Proof.
  unfold fieldOfKey.
  repeat constructor; cbn [fst snd]; field_step.
Qed.

Lemma fieldLine_untouched :
  forall t l, TrType (fieldLine t l) = TrType t /\ HostAdr (fieldLine t l) = HostAdr t.
Proof.
  intros t l. unfold fieldLine.
  destruct (keyValue l) as [[key value]|]; [|now split].
  repeat (match goal with
          | |- context [String.eqb key ?s] =>
              destruct (String.eqb key s); [now split|]
          end).
  now split.
Qed.

(** X12.  In the record of an entry each of the nine fields the parser
    fills holds the value of the last line of the entry for its key (the
    empty string when the entry has no such line): [trtype:] goes to
    [TargetType], [traddr:] to [Portal], [subnqn:] to [TargetNqn], and so
    on.  [TrType] and [HostAdr] are never filled. *)
Theorem entryTarget_last_value :
  forall body,
    Forall (fun kg => snd kg (entryTarget body) = List.last (valuesOf (fst kg) body) "")
      fieldOfKey
    /\ TrType (entryTarget body) = ""
    /\ HostAdr (entryTarget body) = "".
Proof.
  intros body. split.
  - eapply List.Forall_impl; [|apply fieldLine_fields].
    intros [k g] [H0 H]. cbn [fst snd] in *. unfold entryTarget.
    now rewrite (fold_fieldLine_last k g H), H0.
  - unfold entryTarget.
    assert (H : forall b t, TrType (fold_left fieldLine b t) = TrType t
                            /\ HostAdr (fold_left fieldLine b t) = HostAdr t).
    { induction b as [|l b IH]; intros t; [now split|].
      cbn [fold_left]. destruct (IH (fieldLine t l)) as [-> ->].
      apply fieldLine_untouched. }
    apply (H body emptyTarget).
Qed.

Lemma entryTarget_TargetType :
  forall body,
    TargetType (entryTarget body) = List.last (valuesOf "trtype:" body) "".
Proof.
  intros body. pose proof fieldLine_fields as H.
  rewrite List.Forall_forall in H.
  destruct (H ("trtype:", TargetType)) as [_ Hstep];
    [unfold fieldOfKey; now left|].
  unfold entryTarget. now rewrite (fold_fieldLine_last "trtype:" TargetType Hstep).
Qed.

(** X13.  No record [gonvme_tcp.go] returns is of another transport: its
    [TargetType] is the TCP constant, or empty when its entry has no
    [trtype:] line at all. *)
Theorem returned_TargetType :
  forall out t,
    In t (parseDiscovery out) ->
    TargetType t = NVMeTransportTypeTCP \/ TargetType t = "".
Proof.
  intros out t Ht. rewrite parseDiscovery_byEntries in Ht. unfold byEntries in Ht.
  apply in_map_iff in Ht as (b & <- & Hb).
  apply returnedBodies_are_entries in Hb as [Hs _].
  rewrite entryTarget_TargetType.
  unfold otherTransport, skippedBy in Hs.
  destruct (valuesOf "trtype:" b) as [|v vs] eqn:E; [now right|]. left.
  assert (Hin : In (List.last (v :: vs) "") (v :: vs)).
  { destruct (@exists_last _ (v :: vs)) as (l' & a & ->); [discriminate|].
    rewrite last_last. apply in_or_app. right. now left. }
  apply not_true_iff_false in Hs.
  destruct (String.eqb_spec (List.last (v :: vs) "") NVMeTransportTypeTCP) as [H|H];
    [exact H|].
  exfalso. apply Hs. apply existsb_exists.
  exists (List.last (v :: vs) ""). split; [exact Hin|].
  unfold notTcp. apply negb_true_iff. now apply String.eqb_neq.
Qed.

Lemma returned_TargetType_witness :
  TargetType sampleTcpTarget = NVMeTransportTypeTCP \/ TargetType sampleTcpTarget = "".
Proof.
  apply (returned_TargetType sampleLog sampleTcpTarget).
  vm_compute. now left.
Defined.

(** X14.  The parser returns at most one record per entry of the log, and
    at most one for a log without entry header. *)
Theorem parseDiscovery_length :
  forall out, length (parseDiscovery out) <= Nat.max 1 (length (entries out)).
Proof.
  intros out. rewrite parseDiscovery_byEntries.
  unfold byEntries, returnedBodies, keptAtBoundaries.
  rewrite length_map, length_app.
  pose proof (filter_length_le (fun b => negb (skippedBy notTcp b))
                (List.removelast (entries out))) as Hf.
  rewrite removelast_firstn_len, length_firstn in Hf.
  assert (Hl : length (if flushed (lastBody out) then [lastBody out] else []) <= 1)
    by (destruct (flushed (lastBody out)); cbn; lia).
  rewrite removelast_firstn_len.
  destruct (entries out) as [|e es]; cbn [length Nat.pred] in *; lia.
Qed.

(** ** The second copy of the parser *)

(** X15.  The second copy never returns the empty sequence: the last record
    it returns is always the record in progress when the input ends,
    whatever it holds. *)
Theorem secondCopy_last_record :
  forall out d,
    1 <= length (SecondCopy.parseDiscovery out)
    /\ List.last (SecondCopy.parseDiscovery out) d = entryTarget (lastBody out).
Proof.
  intros out d. rewrite secondCopy_parseDiscovery_byEntries.
  unfold SecondCopy.byEntries, SecondCopy.returnedBodies.
  rewrite map_app, length_app. cbn [map length]. split; [lia|].
  apply last_last.
Qed.

(** X16.  On a log in which every entry has exactly one [trtype:] line, the
    entries the second copy returns at the boundaries are exactly the
    entries of another transport: the TCP entries before the last are all
    left out. *)
Theorem secondCopy_returns_other_transports :
  forall out,
    forallb wellFormedEntry (entries out) = true ->
    SecondCopy.parseDiscovery out
    = map entryTarget (List.filter otherTransport (List.removelast (entries out)))
      ++ [entryTarget (lastBody out)].
Proof.
  intros out Hwf. rewrite secondCopy_parseDiscovery_byEntries.
  unfold SecondCopy.byEntries, SecondCopy.returnedBodies, keptAtBoundaries.
  rewrite map_app. cbn [map]. f_equal. f_equal.
  apply filter_ext_in. intros b Hb. apply removelast_in_list in Hb.
  rewrite forallb_forall in Hwf. specialize (Hwf b Hb).
  unfold wellFormedEntry in Hwf. rewrite !andb_true_iff in Hwf.
  destruct Hwf as [[H1 _] _]. apply Nat.eqb_eq in H1.
  unfold otherTransport, skippedBy, notTcp, SecondCopy.isTcp.
  destruct (valuesOf "trtype:" b) as [|v [|w vs]]; try discriminate.
  cbn [existsb]. unfold NVMeNVMeTransportTypeTCP, NVMeTransportTypeTCP.
  now rewrite !orb_false_r.
Qed.

Lemma secondCopy_returns_other_transports_witness :
  SecondCopy.parseDiscovery sampleLogTcpFirst
  = map entryTarget
      (List.filter otherTransport (List.removelast (entries sampleLogTcpFirst)))
    ++ [entryTarget (lastBody sampleLogTcpFirst)].
Proof.
  apply secondCopy_returns_other_transports. vm_compute. reflexivity.
Defined.
